(** * Student tools: notes writer and GitHub profile pages

    A shallow embedding of the two tool pages of the application
    (the study-notes writer and the GitHub profile README maker) and of
    the JavaScript string operations they rely on, with the properties
    of the sequential generation driver, the prompt builders, the form
    state and the preview document. *)

From Stdlib Require Import String Ascii NArith ZArith List Bool Lia.
From stdpp Require Import base option gmap strings.
Import ListNotations.

Local Open Scope N_scope.
Local Open Scope list_scope.

(** ** JavaScript strings

    A JavaScript string is a finite sequence of UTF-16 code units.  The
    operations used by the pages ([split], [trim], [includes], template
    concatenation, [JSON.stringify]) are all defined on code units. *)

Module JS.

Definition char16 := N.
Definition jsstring := list char16.

(** An ASCII literal of the source text as a JavaScript string. *)
Definition js (s : string) : jsstring :=
  map N_of_ascii (list_ascii_of_string s).

Definition DQUOTE : char16 := 34.
Definition BACKSLASH : char16 := 92.
Definition COMMA : char16 := 44.
Definition LF : char16 := 10.

(** Source lines are written as lists of segments: the segments of one
    line are the pieces between its double-quote characters, so that
    [quoted ["<meta charset="; "UTF-8"; ">"]] is the line
    [<meta charset="UTF-8">]. *)
Fixpoint joinWith (sep : jsstring) (parts : list jsstring) : jsstring :=
  match parts with
  | [] => []
  | [p] => p
  | p :: rest => p ++ sep ++ joinWith sep rest
  end.

Definition quoted (segments : list string) : jsstring :=
  joinWith [DQUOTE] (map js segments).

(** The text of several consecutive source lines, separated by line feeds. *)
Definition sourceLines (lines : list (list string)) : jsstring :=
  joinWith [LF] (map quoted lines).

(** [Array.prototype.join('')]. *)
Definition join (parts : list jsstring) : jsstring := concat parts.

(** Truthiness of a string: only the empty string is falsy. *)
Definition truthy (s : jsstring) : bool :=
  match s with
  | [] => false
  | _ :: _ => true
  end.

(** White space and line terminators removed by [String.prototype.trim]
    (ECMAScript WhiteSpace and LineTerminator productions). *)
Definition isWhiteSpace (c : char16) : bool :=
  (c =? 9) || (c =? 10) || (c =? 11) || (c =? 12) || (c =? 13) || (c =? 32)
  || (c =? 160) || (c =? 5760) || ((8192 <=? c) && (c <=? 8202))
  || (c =? 8232) || (c =? 8233) || (c =? 8239) || (c =? 8287)
  || (c =? 12288) || (c =? 65279).

Fixpoint trimStart (s : jsstring) : jsstring :=
  match s with
  | [] => []
  | c :: rest => if isWhiteSpace c then trimStart rest else s
  end.

Definition trimEnd (s : jsstring) : jsstring := rev (trimStart (rev s)).

Definition trim (s : jsstring) : jsstring := trimEnd (trimStart s).

(** The string is not empty and neither its first nor its last code
    unit is white space. *)
Definition cleanEnds (s : jsstring) : bool :=
  match s with
  | [] => false
  | c :: _ => negb (isWhiteSpace c)
  end
  && match rev s with
     | [] => false
     | c :: _ => negb (isWhiteSpace c)
     end.

(** [s.split(sep)] for a separator of one code unit.  The result is never
    empty: the empty string splits into one empty fragment. *)
Fixpoint split (sep : char16) (s : jsstring) : list jsstring :=
  match s with
  | [] => [[]]
  | c :: rest =>
      if c =? sep then [] :: split sep rest
      else match split sep rest with
           | frag :: frags => (c :: frag) :: frags
           | [] => [[c]]
           end
  end.

Fixpoint startsWith (prefix s : jsstring) : bool :=
  match prefix, s with
  | [], _ => true
  | _ :: _, [] => false
  | p :: prefix', c :: s' => (p =? c) && startsWith prefix' s'
  end.

(** [s.includes(needle)]. *)
Fixpoint includes (needle s : jsstring) : bool :=
  startsWith needle s ||
  match s with
  | [] => false
  | _ :: rest => includes needle rest
  end.

(** *** [JSON.stringify] on a string (QuoteJSONString) *)

Definition hexDigit (d : N) : char16 :=
  if d <? 10 then 48 + d else 87 + d.

(** [\uXXXX] with four lower-case hexadecimal digits. *)
Definition unicodeEscape (c : char16) : jsstring :=
  [BACKSLASH; 117; hexDigit (c / 4096 mod 16); hexDigit (c / 256 mod 16);
   hexDigit (c / 16 mod 16); hexDigit (c mod 16)].

Definition isLeadingSurrogate (c : char16) : bool :=
  (55296 <=? c) && (c <=? 56319).

Definition isTrailingSurrogate (c : char16) : bool :=
  (56320 <=? c) && (c <=? 57343).

(** The quoted form of a code unit that is not a surrogate. *)
Definition quoteCodeUnit (c : char16) : jsstring :=
  if c =? 8 then [BACKSLASH; 98]
  else if c =? 9 then [BACKSLASH; 116]
  else if c =? 10 then [BACKSLASH; 110]
  else if c =? 12 then [BACKSLASH; 102]
  else if c =? 13 then [BACKSLASH; 114]
  else if c =? 34 then [BACKSLASH; DQUOTE]
  else if c =? 92 then [BACKSLASH; BACKSLASH]
  else if c <? 32 then unicodeEscape c
  else [c].

(** A surrogate pair is copied; a lone surrogate is escaped. *)
Fixpoint quoteJSONBody (s : jsstring) : jsstring :=
  match s with
  | [] => []
  | c :: rest =>
      if isLeadingSurrogate c then
        match rest with
        | d :: rest' =>
            if isTrailingSurrogate d then c :: d :: quoteJSONBody rest'
            else unicodeEscape c ++ quoteJSONBody rest
        | [] => unicodeEscape c
        end
      else if isTrailingSurrogate c then unicodeEscape c ++ quoteJSONBody rest
      else quoteCodeUnit c ++ quoteJSONBody rest
  end.

Definition JSON_stringify (s : jsstring) : jsstring :=
  [DQUOTE] ++ quoteJSONBody s ++ [DQUOTE].

(** *** Reading a double-quoted string literal of a script

    The value of the literal whose opening quote has been read, and
    the text after its closing quote.  A line feed or carriage return
    inside the literal, or the end of the text before the closing
    quote, is a syntax error.  The escapes read are the ones that
    [JSON.stringify] writes and [\/]; a script with another escape is
    not read by this function. *)

Definition hexValue (c : char16) : option N :=
  if (48 <=? c) && (c <=? 57) then Some (c - 48)
  else if (97 <=? c) && (c <=? 102) then Some (c - 87)
  else if (65 <=? c) && (c <=? 70) then Some (c - 55)
  else None.

Definition hex4 (a b c d : char16) : option char16 :=
  match hexValue a, hexValue b, hexValue c, hexValue d with
  | Some x, Some y, Some z, Some w => Some (x * 4096 + y * 256 + z * 16 + w)
  | _, _, _, _ => None
  end.

Definition consTo (c : char16) (r : option (jsstring * jsstring))
  : option (jsstring * jsstring) :=
  match r with
  | Some (value, rest) => Some (c :: value, rest)
  | None => None
  end.

Fixpoint readStringBody (s : jsstring) : option (jsstring * jsstring) :=
  match s with
  | [] => None
  | c :: rest =>
      if c =? DQUOTE then Some ([], rest)
      else if (c =? 10) || (c =? 13) then None
      else if c =? BACKSLASH then
        match rest with
        | [] => None
        | e :: rest1 =>
            if e =? 117 then
              match rest1 with
              | h1 :: h2 :: h3 :: h4 :: rest2 =>
                  match hex4 h1 h2 h3 h4 with
                  | Some u => consTo u (readStringBody rest2)
                  | None => None
                  end
              | _ => None
              end
            else if e =? 98 then consTo 8 (readStringBody rest1)
            else if e =? 116 then consTo 9 (readStringBody rest1)
            else if e =? 110 then consTo 10 (readStringBody rest1)
            else if e =? 102 then consTo 12 (readStringBody rest1)
            else if e =? 114 then consTo 13 (readStringBody rest1)
            else if (e =? DQUOTE) || (e =? BACKSLASH) || (e =? 47)
            then consTo e (readStringBody rest1)
            else None
        end
      else consTo c (readStringBody rest)
  end.

Definition readStringLiteral (s : jsstring) : option (jsstring * jsstring) :=
  match s with
  | c :: rest => if c =? DQUOTE then readStringBody rest else None
  | [] => None
  end.

(** *** The text of a script element in an HTML document

    [after needle s] is the text that follows the first occurrence of
    [needle] in [s]. *)

Fixpoint after (needle s : jsstring) : option jsstring :=
  if startsWith needle s then Some (skipn (length needle) s)
  else match s with
       | [] => None
       | _ :: rest => after needle rest
       end.

(** Searching in a text of which only the beginning is known.
    [overlaps needle s]: one of [needle] and [s] is a prefix of the
    other, so that [needle] may occur at the start of a text that
    begins with [s]. *)
Fixpoint overlaps (needle s : jsstring) : bool :=
  match needle, s with
  | [], _ => true
  | _, [] => true
  | p :: needle', c :: s' => (p =? c) && overlaps needle' s'
  end.

(** [needle] may begin somewhere inside [s], whatever follows [s]. *)
Fixpoint mayStartIn (needle s : jsstring) : bool :=
  match s with
  | [] => false
  | _ :: rest => overlaps needle s || mayStartIn needle rest
  end.

(** Like [after], but gives up where [needle] could begin in [s] and
    end beyond it. *)
Fixpoint afterWithin (needle s : jsstring) : option jsstring :=
  if startsWith needle s then Some (skipn (length needle) s)
  else match s with
       | [] => None
       | _ :: rest =>
           if overlaps needle s then None else afterWithin needle rest
       end.

Definition toLowerASCII (c : char16) : char16 :=
  if (65 <=? c) && (c <=? 90) then c + 32 else c.

(** The HTML tokenizer leaves the content of a script element at the
    characters [</script], in any letter case, followed by white space,
    [/] or [>]. *)
Definition atScriptEndTag (s : jsstring) : bool :=
  startsWith (js "</script") (map toLowerASCII (firstn 8 s))
  && match skipn 8 s with
     | c :: _ =>
         (c =? 9) || (c =? 10) || (c =? 12) || (c =? 32) || (c =? 47)
         || (c =? 62)
     | [] => false
     end.

(** The content of a script element whose start tag has just been
    read: everything up to the first such end tag.  (Inside a script
    the tokenizer treats end tags differently only after the
    characters [<!--] followed by a nested [<script]; the documents
    considered here have neither before their first end tag.) *)
Fixpoint scriptData (s : jsstring) : jsstring :=
  match s with
  | [] => []
  | c :: rest => if atScriptEndTag s then [] else c :: scriptData rest
  end.

(** Values that a [catch] clause can receive, as far as the type guard
    of the pages distinguishes them. *)
Inductive Thrown : Type :=
| ErrorInstance (message : jsstring)
| ObjectWithMessage (messageAsString : jsstring)
| OtherValue (asString : jsstring).

End JS.

Import JS.

(** ** The external text-generation service

    [model.generateContent(prompt)], awaiting [result.response] and
    reading [response.text()] either yield the generated text or throw.
    The pages see nothing else of the service. *)

Inductive GenResult : Type :=
| Generated (content : jsstring)
| Threw (error : Thrown).

(** [model.generateContent(prompt)] sends the request at once and
    returns a promise; the promise of the [n]-th call of a run is
    identified by [n] and remembers its request. *)
Record Promise : Type := {
  callNumber : nat;
  request : jsstring
}.

(** A program that may call the service.  [Send prompt k] issues a
    call and goes on as [k promise] without waiting; [Await promise k]
    suspends the program until the call has settled with some [r] and
    resumes it as [k r], which is what [await] does inside an [async]
    function. *)
Inductive Prog (A : Type) : Type :=
| Ret (a : A)
| Send (prompt : jsstring) (k : Promise -> Prog A)
| Await (promise : Promise) (k : GenResult -> Prog A).

Arguments Ret {A} a.
Arguments Send {A} prompt k.
Arguments Await {A} promise k.

Fixpoint pbind {A B : Type} (p : Prog A) (f : A -> Prog B) : Prog B :=
  match p with
  | Ret a => f a
  | Send prompt k => Send prompt (fun promise => pbind (k promise) f)
  | Await promise k => Await promise (fun r => pbind (k r) f)
  end.

(** What can be observed at the boundary with the service: a call is
    issued; the program learns that a call has settled. *)
Inductive Event : Type :=
| CallIssued (prompt : jsstring)
| CallSettled (result : GenResult).

(** The service as seen by one run: the answer to a prompt may depend on
    how many calls the run has issued before it. *)
Definition Service := nat -> jsstring -> GenResult.

(** Running a program against a service, when [n] calls have been
    issued before, gives its result and the events in the order in
    which they happen. *)
Fixpoint run {A : Type} (service : Service) (n : nat) (p : Prog A)
  : A * list Event :=
  match p with
  | Ret a => (a, [])
  | Send prompt k =>
      let '(a, events) :=
        run service (S n) (k {| callNumber := n; request := prompt |}) in
      (a, CallIssued prompt :: events)
  | Await promise k =>
      let r := service (callNumber promise) (request promise) in
      let '(a, events) := run service n (k r) in
      (a, CallSettled r :: events)
  end.

(** The prompts of the calls of a trace, in order. *)
Fixpoint callsOf (events : list Event) : list jsstring :=
  match events with
  | [] => []
  | CallIssued prompt :: rest => prompt :: callsOf rest
  | CallSettled _ :: rest => callsOf rest
  end.

(** A trace is sequential when every call is settled before the next
    one is issued: no two calls are in flight together. *)
Fixpoint sequential (events : list Event) : bool :=
  match events with
  | [] => true
  | CallIssued _ :: CallSettled _ :: rest => sequential rest
  | _ => false
  end.

(** Two calls issued together and awaited afterwards, as
    [Promise.all] over two calls would do. *)
Definition bothAtOnce (p1 p2 : jsstring) : Prog (GenResult * GenResult) :=
  Send p1 (fun promise1 =>
  Send p2 (fun promise2 =>
  Await promise1 (fun r1 =>
  Await promise2 (fun r2 => Ret (r1, r2))))).

(** ** The notes writer page *)

Module NotesWriter.

Record FormData : Type := {
  unitTitle : jsstring;
  topics : jsstring
}.

Record TopicContent : Type := {
  topic : jsstring;
  content : jsstring
}.

(** The object passed to [toast]. *)
Record Toast : Type := {
  title : string;
  description : string;
  variant : string
}.

(** A call of [console.error(label, error)]. *)
Record ConsoleError : Type := {
  label : string;
  logged : Thrown
}.

(** The state cells of the component, together with the toasts shown
    and the console messages written so far. *)
Record State : Type := {
  formData : FormData;
  generatedNotes : jsstring;
  topicContents : list TopicContent;
  isLoading : bool;
  showLoadingModal : bool;
  currentSection : option jsstring;
  completedSections : list jsstring;
  showSuccessModal : bool;
  showApiKeyModal : bool;
  toasts : list Toast;
  console : list ConsoleError
}.

Definition setShowApiKeyModal (v : bool) (st : State) : State :=
  {| formData := formData st; generatedNotes := generatedNotes st;
     topicContents := topicContents st; isLoading := isLoading st;
     showLoadingModal := showLoadingModal st;
     currentSection := currentSection st;
     completedSections := completedSections st;
     showSuccessModal := showSuccessModal st; showApiKeyModal := v;
     toasts := toasts st; console := console st |}.

Definition setGeneratedNotes (v : jsstring) (st : State) : State :=
  {| formData := formData st; generatedNotes := v;
     topicContents := topicContents st; isLoading := isLoading st;
     showLoadingModal := showLoadingModal st;
     currentSection := currentSection st;
     completedSections := completedSections st;
     showSuccessModal := showSuccessModal st;
     showApiKeyModal := showApiKeyModal st;
     toasts := toasts st; console := console st |}.

Definition setTopicContents (v : list TopicContent) (st : State) : State :=
  {| formData := formData st; generatedNotes := generatedNotes st;
     topicContents := v; isLoading := isLoading st;
     showLoadingModal := showLoadingModal st;
     currentSection := currentSection st;
     completedSections := completedSections st;
     showSuccessModal := showSuccessModal st;
     showApiKeyModal := showApiKeyModal st;
     toasts := toasts st; console := console st |}.

Definition setIsLoading (v : bool) (st : State) : State :=
  {| formData := formData st; generatedNotes := generatedNotes st;
     topicContents := topicContents st; isLoading := v;
     showLoadingModal := showLoadingModal st;
     currentSection := currentSection st;
     completedSections := completedSections st;
     showSuccessModal := showSuccessModal st;
     showApiKeyModal := showApiKeyModal st;
     toasts := toasts st; console := console st |}.

Definition setShowLoadingModal (v : bool) (st : State) : State :=
  {| formData := formData st; generatedNotes := generatedNotes st;
     topicContents := topicContents st; isLoading := isLoading st;
     showLoadingModal := v;
     currentSection := currentSection st;
     completedSections := completedSections st;
     showSuccessModal := showSuccessModal st;
     showApiKeyModal := showApiKeyModal st;
     toasts := toasts st; console := console st |}.

Definition setCurrentSection (v : option jsstring) (st : State) : State :=
  {| formData := formData st; generatedNotes := generatedNotes st;
     topicContents := topicContents st; isLoading := isLoading st;
     showLoadingModal := showLoadingModal st;
     currentSection := v;
     completedSections := completedSections st;
     showSuccessModal := showSuccessModal st;
     showApiKeyModal := showApiKeyModal st;
     toasts := toasts st; console := console st |}.

(** [setCompletedSections] is also called with an updater function,
    which React applies to the latest value of the cell. *)
Definition setCompletedSections
  (update : list jsstring -> list jsstring) (st : State) : State :=
  {| formData := formData st; generatedNotes := generatedNotes st;
     topicContents := topicContents st; isLoading := isLoading st;
     showLoadingModal := showLoadingModal st;
     currentSection := currentSection st;
     completedSections := update (completedSections st);
     showSuccessModal := showSuccessModal st;
     showApiKeyModal := showApiKeyModal st;
     toasts := toasts st; console := console st |}.

Definition setShowSuccessModal (v : bool) (st : State) : State :=
  {| formData := formData st; generatedNotes := generatedNotes st;
     topicContents := topicContents st; isLoading := isLoading st;
     showLoadingModal := showLoadingModal st;
     currentSection := currentSection st;
     completedSections := completedSections st;
     showSuccessModal := v;
     showApiKeyModal := showApiKeyModal st;
     toasts := toasts st; console := console st |}.

Definition setFormData (v : FormData) (st : State) : State :=
  {| formData := v; generatedNotes := generatedNotes st;
     topicContents := topicContents st; isLoading := isLoading st;
     showLoadingModal := showLoadingModal st;
     currentSection := currentSection st;
     completedSections := completedSections st;
     showSuccessModal := showSuccessModal st;
     showApiKeyModal := showApiKeyModal st;
     toasts := toasts st; console := console st |}.

Definition toast (t : Toast) (st : State) : State :=
  {| formData := formData st; generatedNotes := generatedNotes st;
     topicContents := topicContents st; isLoading := isLoading st;
     showLoadingModal := showLoadingModal st;
     currentSection := currentSection st;
     completedSections := completedSections st;
     showSuccessModal := showSuccessModal st;
     showApiKeyModal := showApiKeyModal st;
     toasts := toasts st ++ [t]; console := console st |}.

Definition consoleError (l : string) (e : Thrown) (st : State) : State :=
  {| formData := formData st; generatedNotes := generatedNotes st;
     topicContents := topicContents st; isLoading := isLoading st;
     showLoadingModal := showLoadingModal st;
     currentSection := currentSection st;
     completedSections := completedSections st;
     showSuccessModal := showSuccessModal st;
     showApiKeyModal := showApiKeyModal st;
     toasts := toasts st;
     console := console st ++ [{| label := l; logged := e |}] |}.

(** What a function defined in the body of the component can see
    besides its own arguments: the API key of the context and the state
    cells of the render in which it was created. *)
Record Scope : Type := {
  geminiKey : option jsstring;
  rendered : State
}.

(** The [context] argument of [generateTopicPrompt]. *)
Record TopicContext : Type := {
  context_unitTitle : jsstring
}.

Definition topicPromptBody : list (list string) :=
  [ ["Use markdown formatting for better readability and structure."];
    [""];
    ["Please provide detailed, well-structured content that includes:"];
    ["1. A brief overview of the topic"];
    ["2. Key concepts and principles"];
    ["3. Examples and illustrations where applicable"];
    ["4. Important points to remember"];
    ["5. Common misconceptions or challenges"];
    ["6. Practice questions or exercises (if relevant)"];
    [""];
    ["Format the content using markdown with:"];
    ["1. Clear headings using ### for sub-topics"];
    ["2. Bullet points and numbered lists where appropriate"];
    ["3. **Bold** and *italic* text for emphasis"];
    ["4. Code blocks with proper syntax highlighting (if needed)"];
    ["5. Tables where relevant"];
    ["6. > Blockquotes for important notes or definitions"];
    [""];
    ["Structure your response with these sections:"];
    ["### Overview"];
    ["[Brief overview of the topic]"];
    [""];
    ["### Key Concepts"];
    ["[Explanation of main concepts]"];
    [""];
    ["### Examples"];
    ["[Practical examples]"];
    [""];
    ["### Important Points"];
    ["[Key takeaways]"];
    [""];
    ["If applicable, also include:"];
    ["### Common Misconceptions"];
    ["### Practice Questions"];
    [""];
    ["DO NOT include a heading for the topic itself, as I will add it separately."];
    ["Start directly with the content."] ].

Definition generateTopicPrompt
  (scope : Scope) (topic : jsstring) (context : TopicContext) : jsstring :=
  js "Generate comprehensive study notes for the topic " ++ [DQUOTE]
  ++ topic ++ [DQUOTE] ++ js " within the unit " ++ [DQUOTE]
  ++ context_unitTitle context ++ [DQUOTE] ++ js "." ++ [LF]
  ++ sourceLines topicPromptBody.

(** *** Actions of the event handler

    An action reads and updates the state cells and may call the
    service. *)

Definition Action (A : Type) : Type := State -> Prog (A * State).

Definition ret {A : Type} (a : A) : Action A := fun st => Ret (a, st).

Definition bind {A B : Type} (m : Action A) (f : A -> Action B) : Action B :=
  fun st => pbind (m st) (fun '(a, st') => f a st').

Definition modify (f : State -> State) : Action unit :=
  fun st => Ret (tt, f st).

(** [model.generateContent(prompt)] and [await]. *)
Definition generateContent (prompt : jsstring) : Action Promise :=
  fun st => Send prompt (fun promise => Ret (promise, st)).

Definition await (promise : Promise) : Action GenResult :=
  fun st => Await promise (fun r => Ret (r, st)).

Declare Scope action_scope.
Delimit Scope action_scope with action.
Bind Scope action_scope with Action.

Notation "x <- m ;; k" := (bind m (fun x => k))
  (at level 100, m at next level, right associativity) : action_scope.
Notation "m ;; k" := (bind m (fun _ => k))
  (at level 100, right associativity) : action_scope.

Local Open Scope action_scope.

(** The local variables of [handleSubmit] that the loop mutates. *)
Record Locals : Type := {
  allContent : list jsstring;
  newTopicContents : list TopicContent
}.

(** The message extracted from the caught value by the type guard. *)
Definition errorMessageOf (error : Thrown) : jsstring :=
  match error with
  | ErrorInstance message => message
  | ObjectWithMessage message => message
  | OtherValue asString => asString
  end.

Definition invalidKeyToast : Toast :=
  {| title := "Invalid API Key";
     description := "Please check your Gemini API key and try again.";
     variant := "destructive" |}.

Definition generationFailedToast : Toast :=
  {| title := "Generation Failed";
     description := "Failed to generate notes. Please try again.";
     variant := "destructive" |}.

Definition missingInformationToast : Toast :=
  {| title := "Missing Information";
     description := "Please enter both unit title and topics.";
     variant := "destructive" |}.

(** The fragment pushed on [allContent] for a generated topic. *)
Definition topicSection (topic content : jsstring) : jsstring :=
  [LF; LF] ++ js "## " ++ topic ++ [LF; LF] ++ content.

(** The first element of [allContent]. *)
Definition titleHeading (unitTitle : jsstring) : jsstring :=
  js "# " ++ unitTitle ++ [LF].

(** The body of the [for] loop for one topic, with its [try]/[catch]. *)
Definition processTopic
  (scope : Scope) (topic : jsstring) (vars : Locals) : Action Locals :=
  modify (setCurrentSection (Some topic)) ;;
  let prompt :=
    generateTopicPrompt scope topic
      {| context_unitTitle := unitTitle (formData (rendered scope)) |} in
  promise <- generateContent prompt ;;
  result <- await promise ;;
  match result with
  | Generated content =>
      let vars' :=
        {| allContent := allContent vars ++ [topicSection topic content];
           newTopicContents :=
             newTopicContents vars
             ++ [{| topic := topic; content := content |}] |} in
      modify (setCompletedSections (fun prev => prev ++ [topic])) ;;
      ret vars'
  | Threw error =>
      modify (consoleError "Error generating notes:" error) ;;
      let errorMessage := errorMessageOf error in
      (if includes (js "API key") errorMessage
       then modify (toast invalidKeyToast) ;;
            modify (setShowApiKeyModal true)
       else modify (toast generationFailedToast)) ;;
      ret vars
  end.

(** [for (const topic of topics) { ... }]. *)
Fixpoint processTopics
  (scope : Scope) (topicList : list jsstring) (vars : Locals)
  : Action Locals :=
  match topicList with
  | [] => ret vars
  | topic :: rest =>
      vars' <- processTopic scope topic vars ;;
      processTopics scope rest vars'
  end.

(** [formData.topics.split(',').map(topic => topic.trim()).filter(Boolean)]. *)
Definition splitTopics (topicsField : jsstring) : list jsstring :=
  List.filter truthy (map trim (split COMMA topicsField)).

(** Whether [!geminiKey] lets the handler continue: the key must be
    neither missing nor the empty string. *)
Definition keyPresent (key : option jsstring) : bool :=
  match key with
  | Some k => truthy k
  | None => false
  end.

(** The submit handler.  The client object and the model handle are
    built from the key without talking to the service; the only step
    of the outer [try] block that can throw is the call of the service,
    which the inner [try] catches, so the outer [catch] is never
    entered and the [finally] block follows the success path. *)
Definition handleSubmit (scope : Scope) : Action unit :=
  if negb (keyPresent (geminiKey scope)) then
    modify (setShowApiKeyModal true)
  else
    let form := formData (rendered scope) in
    if negb (truthy (unitTitle form)) || negb (truthy (topics form)) then
      modify (toast missingInformationToast)
    else
      modify (setIsLoading true) ;;
      modify (setShowLoadingModal true) ;;
      modify (setTopicContents []) ;;
      modify (setCompletedSections (fun _ => [])) ;;
      modify (setGeneratedNotes []) ;;
      let topicList := splitTopics (topics form) in
      vars <- processTopics scope topicList
                {| allContent := [titleHeading (unitTitle form)];
                   newTopicContents := [] |} ;;
      modify (setGeneratedNotes (join (allContent vars))) ;;
      modify (setTopicContents (newTopicContents vars)) ;;
      modify (setShowSuccessModal true) ;;
      modify (setIsLoading false) ;;
      modify (setShowLoadingModal false) ;;
      modify (setCurrentSection None).

(** The scope of the handler created by the render of state [st] with
    API key [key]. *)
Definition scopeOf (key : option jsstring) (st : State) : Scope :=
  {| geminiKey := key; rendered := st |}.

(** A submission of the form: the handler of the current render runs
    against [service]; the result is the state afterwards and the
    trace of the calls. *)
Definition submit (service : Service) (key : option jsstring) (st : State)
  : State * list Event :=
  let '((_, st'), events) :=
    run service 0 (handleSubmit (scopeOf key st) st) in
  (st', events).

(** The children of the paragraph of the success modal. *)
Inductive TextNode : Type :=
| Text (s : string)
| Number (n : nat).

(** [SuccessModal]: nothing when closed, else its heading and the
    children of its paragraph. *)
Definition SuccessModal (st : State) (isOpen : bool)
  : option (string * list TextNode) :=
  if negb isOpen then None
  else Some ("Notes Generated!",
             [ Text "Your study notes have been successfully generated with ";
               Number (length (topicContents st));
               Text " topics." ]).

(** The success modal as the page renders it. *)
Definition renderedSuccessModal (st : State) :=
  SuccessModal st (showSuccessModal st).

(** The state of a freshly mounted page with nothing stored. *)
Definition initialState : State :=
  {| formData := {| unitTitle := []; topics := [] |};
     generatedNotes := []; topicContents := [];
     isLoading := false; showLoadingModal := false;
     currentSection := None; completedSections := [];
     showSuccessModal := false; showApiKeyModal := false;
     toasts := []; console := [] |}.

(** *** Describing a run

    The topics of a run with the result of the call made for each,
    when the first of these calls is the [n]-th call of the run. *)

Definition promptFor (scope : Scope) (topic : jsstring) : jsstring :=
  generateTopicPrompt scope topic
    {| context_unitTitle := unitTitle (formData (rendered scope)) |}.

Fixpoint outcomes
  (service : Service) (scope : Scope) (n : nat) (topicList : list jsstring)
  : list (jsstring * GenResult) :=
  match topicList with
  | [] => []
  | topic :: rest =>
      (topic, service n (promptFor scope topic))
      :: outcomes service scope (S n) rest
  end.

(** The topics whose call succeeded, with the generated content. *)
Fixpoint successes (os : list (jsstring * GenResult)) : list TopicContent :=
  match os with
  | [] => []
  | (t, Generated c) :: rest => {| topic := t; content := c |} :: successes rest
  | (_, Threw _) :: rest => successes rest
  end.

(** The topics whose call failed, with the value thrown. *)
Fixpoint failures (os : list (jsstring * GenResult)) : list (jsstring * Thrown) :=
  match os with
  | [] => []
  | (_, Generated _) :: rest => failures rest
  | (t, Threw e) :: rest => (t, e) :: failures rest
  end.

(** One call after the other: each call is issued, then settled. *)
Fixpoint traceOf (scope : Scope) (os : list (jsstring * GenResult))
  : list Event :=
  match os with
  | [] => []
  | (t, r) :: rest =>
      CallIssued (promptFor scope t) :: CallSettled r :: traceOf scope rest
  end.

(** The topics of a submission with the results of their calls. *)
Definition outcomesOf (service : Service) (key : option jsstring) (st : State)
  : list (jsstring * GenResult) :=
  outcomes service (scopeOf key st) 0 (splitTopics (topics (formData st))).

(** The notes as the specification words them: the title heading,
    then one section per successful topic. *)
Definition specNotes (u : jsstring) (generated : list TopicContent) : jsstring :=
  js "# " ++ u ++ [LF]
  ++ concat (map (fun tc => [LF; LF] ++ js "## " ++ topic tc ++ [LF; LF]
                            ++ content tc) generated).

(** The toast shown for a failed call. *)
Definition failureToast (e : Thrown) : Toast :=
  if includes (js "API key") (errorMessageOf e) then invalidKeyToast
  else generationFailedToast.

(** The effect of one iteration of the loop on the local variables and
    on the state, given the result of its call. *)
Definition afterTopic (acc : Locals * State) (o : jsstring * GenResult)
  : Locals * State :=
  let '(vars, st) := acc in
  let '(t, r) := o in
  let st1 := setCurrentSection (Some t) st in
  match r with
  | Generated c =>
      ({| allContent := allContent vars ++ [topicSection t c];
          newTopicContents :=
            newTopicContents vars ++ [{| topic := t; content := c |}] |},
       setCompletedSections (fun prev => prev ++ [t]) st1)
  | Threw e =>
      let st2 := consoleError "Error generating notes:" e st1 in
      (vars,
       if includes (js "API key") (errorMessageOf e)
       then setShowApiKeyModal true (toast invalidKeyToast st2)
       else toast generationFailedToast st2)
  end.

(** The section of the notes for a generated topic. *)
Definition sectionOf (tc : TopicContent) : jsstring :=
  topicSection (topic tc) (content tc).

(** The state in which the loop starts. *)
Definition cleared (st0 : State) : State :=
  setGeneratedNotes []
    (setCompletedSections (fun _ => [])
       (setTopicContents []
          (setShowLoadingModal true (setIsLoading true st0)))).

(** The state writes that follow the loop. *)
Definition finished (vars : Locals) (st0 : State) : State :=
  setCurrentSection None
    (setShowLoadingModal false
       (setIsLoading false
          (setShowSuccessModal true
             (setTopicContents (newTopicContents vars)
                (setGeneratedNotes (join (allContent vars)) st0))))).

(** Everything the handler writes: the state without the form. *)
Definition written (st : State) :=
  (generatedNotes st, topicContents st, completedSections st,
   currentSection st,
   (isLoading st, showLoadingModal st, showSuccessModal st, showApiKeyModal st),
   (toasts st, console st)).

(** Whether the handler gets past its two guards. *)
Definition accepted (key : option jsstring) (st : State) : bool :=
  keyPresent key && truthy (unitTitle (formData st))
  && truthy (topics (formData st)).

(** Concrete forms and services used in examples. *)
Definition formWith (u t : string) : State :=
  setFormData {| unitTitle := js u; topics := js t |} initialState.

Definition alwaysGenerates : Service :=
  fun _ _ => Generated (js "text").

Definition failsSecondCall : Service :=
  fun n _ =>
    match n with
    | 1%nat => Threw (ErrorInstance (js "quota exceeded"))
    | _ => Generated (js "text")
    end.

Definition alwaysFails : Service :=
  fun _ _ => Threw (ErrorInstance (js "quota exceeded")).

(** The [sections] handed to the loading modal by the page: the
    fragments of the topics field, trimmed but not filtered. *)
Definition loadingSections (st : State) : list jsstring :=
  map trim (split COMMA (topics (formData st))).

(** The message logged for a failed call. *)
Definition loggedFailure (e : Thrown) : ConsoleError :=
  {| label := "Error generating notes:"; logged := e |}.

(** Whether the message of a caught value mentions the API key. *)
Definition mentionsApiKey (e : Thrown) : bool :=
  includes (js "API key") (errorMessageOf e).

End NotesWriter.

(** ** The GitHub profile page *)

Module GitHubProfile.

Record FormData : Type := {
  title : jsstring;
  subtitle : jsstring;
  programmingSkills : jsstring;
  frontendSkills : jsstring;
  backendSkills : jsstring;
  databaseSkills : jsstring;
  softwareSkills : jsstring;
  work : jsstring;
  projects : jsstring;
  githubLink : jsstring;
  leetcodeLink : jsstring
}.

(** The state cells of the component, all of them plain [useState]
    cells. *)
Record State : Type := {
  formData : FormData;
  generatedProfile : jsstring;
  isLoading : bool;
  error : jsstring
}.

Definition emptyForm : FormData :=
  {| title := []; subtitle := []; programmingSkills := [];
     frontendSkills := []; backendSkills := []; databaseSkills := [];
     softwareSkills := []; work := []; projects := []; githubLink := [];
     leetcodeLink := [] |}.

(** The initial values given to [useState]. *)
Definition initialState : State :=
  {| formData := emptyForm; generatedProfile := []; isLoading := false;
     error := [] |}.

Definition setFormData (v : FormData) (st : State) : State :=
  {| formData := v; generatedProfile := generatedProfile st;
     isLoading := isLoading st; error := error st |}.

(** [generatePrompt] is defined in the body of the component: besides
    its argument it could read the state cells of the render. *)
Definition generatePrompt (scope : State) (data : FormData) : jsstring :=
  joinWith [LF]
    [ js "Create a professional GitHub profile README.md with the following information:";
      [];
      js "Title: " ++ title data;
      js "Subtitle: " ++ subtitle data;
      [];
      js "Skills:";
      js "- Programming Languages: " ++ programmingSkills data;
      js "- Frontend: " ++ frontendSkills data;
      js "- Backend: " ++ backendSkills data;
      js "- Databases: " ++ databaseSkills data;
      js "- Software & Tools: " ++ softwareSkills data;
      [];
      js "Work Experience:";
      work data;
      [];
      js "Projects:";
      projects data;
      [];
      js "Social Links:";
      js "- GitHub: " ++ githubLink data;
      js "- LeetCode: " ++ leetcodeLink data;
      [];
      js "Please format it beautifully with markdown, including appropriate emojis, badges, and sections. Make it visually appealing and professional." ].

(** The form that [fillTestData] sets.  The waving hand of the title
    is the surrogate pair D83D DC4B. *)
Definition testData : FormData :=
  {| title := js "Hi " ++ [55357; 56395] ++ js ", I'm Sarah Johnson";
     subtitle := js "A passionate Full Stack Developer from San Francisco";
     programmingSkills := js "Python, JavaScript, TypeScript, Java, C++";
     frontendSkills := js "React, Next.js, Vue.js, TailwindCSS, Material-UI";
     backendSkills := js "Node.js, Express, Django, FastAPI, Spring Boot";
     databaseSkills := js "PostgreSQL, MongoDB, Redis, Elasticsearch";
     softwareSkills := js "Git, Docker, AWS, Kubernetes, CI/CD";
     work :=
       joinWith [LF]
         [ js "- Senior Full Stack Developer at TechCorp (2021-Present)";
           js "- Software Engineer at StartupX (2019-2021)";
           js "- Junior Developer at CodeCo (2018-2019)" ];
     projects :=
       joinWith [LF]
         [ js "- BuildMaster: A CI/CD platform with 1000+ active users";
           js "- DataViz: Real-time data visualization dashboard";
           js "- SmartChat: AI-powered customer service chatbot" ];
     githubLink := js "https://github.com/sarahjohnson";
     leetcodeLink := js "https://leetcode.com/sarahjohnson" |}.

Definition fillTestData (st : State) : State := setFormData testData st.

Definition setGeneratedProfile (v : jsstring) (st : State) : State :=
  {| formData := formData st; generatedProfile := v;
     isLoading := isLoading st; error := error st |}.

Definition setIsLoading (v : bool) (st : State) : State :=
  {| formData := formData st; generatedProfile := generatedProfile st;
     isLoading := v; error := error st |}.

Definition setError (v : jsstring) (st : State) : State :=
  {| formData := formData st; generatedProfile := generatedProfile st;
     isLoading := isLoading st; error := v |}.

Definition failureMessage : jsstring :=
  js "Failed to generate profile. Please check your API key and try again.".

(** The submit handler of the profile page.  It has no guard: the
    call is issued whatever the form holds.  The result is the state
    afterwards and the values written to the console. *)
Definition handleSubmit (st : State) : Prog (State * list Thrown) :=
  let st1 := setError [] (setIsLoading true st) in
  let prompt := generatePrompt st (formData st) in
  Send prompt (fun promise =>
  Await promise (fun result =>
    match result with
    | Generated text =>
        Ret (setIsLoading false (setGeneratedProfile text st1), [])
    | Threw err =>
        Ret (setIsLoading false (setError failureMessage st1), [err])
    end)).

Definition submit (service : Service) (st : State)
  : (State * list Thrown) * list Event :=
  run service 0 (handleSubmit st).

(** What the preview panel shows: the spinner, the error line, and
    the generated profile with its buttons. *)
Definition showsSpinner (st : State) : bool := isLoading st.

Definition showsError (st : State) : bool := truthy (error st).

Definition showsProfile (st : State) : bool :=
  truthy (generatedProfile st) && negb (isLoading st).

(** The fields of a form in the order of the prompt. *)
Definition fieldsOf (data : FormData) : list jsstring :=
  [ title data; subtitle data; programmingSkills data; frontendSkills data;
    backendSkills data; databaseSkills data; softwareSkills data; work data;
    projects data; githubLink data; leetcodeLink data ].

End GitHubProfile.

(** ** Page loads within a browser session *)

Module Session.

(** The values the notes writer keeps in [sessionStorage]. *)
Inductive StoredValue : Type :=
| StoredForm (form : NotesWriter.FormData)
| StoredText (text : jsstring)
| StoredTopics (items : list NotesWriter.TopicContent).

Abbreviation SessionStorage := (gmap string StoredValue).

Definition asForm (v : StoredValue) : option NotesWriter.FormData :=
  match v with
  | StoredForm form => Some form
  | _ => None
  end.

Definition asText (v : StoredValue) : option jsstring :=
  match v with
  | StoredText text => Some text
  | _ => None
  end.

Definition asTopics (v : StoredValue) : option (list NotesWriter.TopicContent) :=
  match v with
  | StoredTopics items => Some items
  | _ => None
  end.

(** Modelled from the spec: the hook [useSessionStorage] of
    [lib/useSessionStorage], which is not among the sources.  The spec
    says of the form state that it is persisted across page reloads
    within a browser session: the cell starts from the value stored
    under its key, or from the given initial value when nothing is
    stored. *)
Definition useSessionStorage {A : Type}
  (decode : StoredValue -> option A) (key : string) (initialValue : A)
  (storage : SessionStorage) : A :=
  default initialValue (storage !! key ≫= decode).

(** Modelled from the spec: the setter returned by [useSessionStorage],
    also missing from the sources.  Setting the cell stores the value
    under the key of the cell. *)
Definition storeValue {A : Type}
  (encode : A -> StoredValue) (key : string) (value : A)
  (storage : SessionStorage) : SessionStorage :=
  <[key := encode value]> storage.

(** Mounting the notes writer: three cells come from the session
    storage, the others from [useState]. *)
Definition mountNotesWriter (storage : SessionStorage) : NotesWriter.State :=
  {| NotesWriter.formData :=
       useSessionStorage asForm "notes-writer-form"
         {| NotesWriter.unitTitle := []; NotesWriter.topics := [] |} storage;
     NotesWriter.generatedNotes :=
       useSessionStorage asText "notes-writer-generated" [] storage;
     NotesWriter.topicContents :=
       useSessionStorage asTopics "notes-writer-topics" [] storage;
     NotesWriter.isLoading := false;
     NotesWriter.showLoadingModal := false;
     NotesWriter.currentSection := None;
     NotesWriter.completedSections := [];
     NotesWriter.showSuccessModal := false;
     NotesWriter.showApiKeyModal := false;
     NotesWriter.toasts := [];
     NotesWriter.console := [] |}.

(** [setFormData] on a page in a tab, given as its state cells and the
    session storage of the tab: the cell and the storage are both
    updated. *)
Definition notesWriterSetFormData (form : NotesWriter.FormData)
  (page : NotesWriter.State * SessionStorage)
  : NotesWriter.State * SessionStorage :=
  (NotesWriter.setFormData form (fst page),
   storeValue StoredForm "notes-writer-form" form (snd page)).

(** The [onChange] handlers of the two fields of the notes writer. *)
Definition notesWriterChangeUnitTitle (value : jsstring)
  (page : NotesWriter.State * SessionStorage) :=
  notesWriterSetFormData
    {| NotesWriter.unitTitle := value;
       NotesWriter.topics := NotesWriter.topics (NotesWriter.formData (fst page)) |}
    page.

Definition notesWriterChangeTopics (value : jsstring)
  (page : NotesWriter.State * SessionStorage) :=
  notesWriterSetFormData
    {| NotesWriter.unitTitle :=
         NotesWriter.unitTitle (NotesWriter.formData (fst page));
       NotesWriter.topics := value |}
    page.

(** A reload discards the state cells and mounts the page again; the
    session storage of the tab is kept. *)
Definition reloadNotesWriter (page : NotesWriter.State * SessionStorage)
  : NotesWriter.State * SessionStorage :=
  (mountNotesWriter (snd page), snd page).

(** The GitHub profile page reads and writes no storage. *)
Definition mountGitHubProfile (storage : SessionStorage) : GitHubProfile.State :=
  GitHubProfile.initialState.

Definition gitHubProfileSetFormData (form : GitHubProfile.FormData)
  (page : GitHubProfile.State * SessionStorage)
  : GitHubProfile.State * SessionStorage :=
  (GitHubProfile.setFormData form (fst page), snd page).

Definition reloadGitHubProfile (page : GitHubProfile.State * SessionStorage)
  : GitHubProfile.State * SessionStorage :=
  (mountGitHubProfile (snd page), snd page).

End Session.

(** ** The preview of the notes in a new tab *)

Module Preview.

(** The three constant parts of the template literal passed to
    [document.write], around the title and the embedded notes. *)
Definition previewHead : list (list string) :=
  [ [""];
    ["        <html>"];
    ["          <head>"];
    ["            <meta charset="; "UTF-8"; ">"];
    ["            <meta name="; "viewport"; " content="; "width=device-width, initial-scale=1.0, maximum-scale=1.0, user-scalable=no"; ">"];
    ["            <title>"] ].

Definition previewMiddle : list (list string) :=
  [ ["</title>"];
    ["            <link rel="; "stylesheet"; " href="; "https://cdnjs.cloudflare.com/ajax/libs/github-markdown-css/5.2.0/github-markdown.min.css"; ">"];
    ["            <link rel="; "stylesheet"; " href="; "https://cdnjs.cloudflare.com/ajax/libs/font-awesome/6.4.0/css/all.min.css"; ">"];
    ["            <style>"];
    ["              body {"];
    ["                background-color: #ffffff;"];
    ["                margin: 0;"];
    ["                padding: 0;"];
    ["                color: #24292e;"];
    ["                font-family: -apple-system, BlinkMacSystemFont, "; "Segoe UI"; ", Helvetica, Arial, sans-serif;"];
    ["                line-height: 1.6;"];
    ["              }"];
    ["              .control-bar {"];
    ["                position: sticky;"];
    ["                top: 0;"];
    ["                background-color: #f6f8fa;"];
    ["                border-bottom: 1px solid #e1e4e8;"];
    ["                padding: 12px 16px;"];
    ["                display: flex;"];
    ["                justify-content: space-between;"];
    ["                align-items: center;"];
    ["                z-index: 100;"];
    ["                box-shadow: 0 1px 2px rgba(0,0,0,0.1);"];
    ["              }"];
    ["              .instruction {"];
    ["                font-size: 14px;"];
    ["                color: #57606a;"];
    ["                margin-right: 10px;"];
    ["              }"];
    ["              .buttons {"];
    ["                display: flex;"];
    ["                gap: 8px;"];
    ["              }"];
    ["              .btn {"];
    ["                display: inline-flex;"];
    ["                align-items: center;"];
    ["                justify-content: center;"];
    ["                gap: 6px;"];
    ["                background-color: #ffffff;"];
    ["                border: 1px solid #d1d5da;"];
    ["                border-radius: 6px;"];
    ["                padding: 6px 12px;"];
    ["                font-size: 14px;"];
    ["                font-weight: 500;"];
    ["                color: #24292e;"];
    ["                cursor: pointer;"];
    ["                transition: all 0.2s;"];
    ["              }"];
    ["              .btn:hover {"];
    ["                background-color: #f3f4f6;"];
    ["              }"];
    ["              .btn i {"];
    ["                font-size: 14px;"];
    ["              }"];
    ["              .btn-success {"];
    ["                background-color: #2ea44f;"];
    ["                color: white;"];
    ["                border-color: #2ea44f;"];
    ["              }"];
    ["              .btn-success:hover {"];
    ["                background-color: #2c974b;"];
    ["              }"];
    ["              .markdown-body {"];
    ["                box-sizing: border-box;"];
    ["                min-width: 200px;"];
    ["                max-width: 980px;"];
    ["                margin: 0 auto;"];
    ["                padding: 45px;"];
    ["                background-color: #ffffff;"];
    ["                color: #24292e;"];
    ["                border: 1px solid #e1e4e8;"];
    ["                border-radius: 6px;"];
    ["                margin-top: 20px;"];
    ["                margin-bottom: 40px;"];
    ["              }"];
    ["              .markdown-body h1, "];
    ["              .markdown-body h2, "];
    ["              .markdown-body h3, "];
    ["              .markdown-body h4, "];
    ["              .markdown-body h5, "];
    ["              .markdown-body h6,"];
    ["              .markdown-body p,"];
    ["              .markdown-body li,"];
    ["              .markdown-body a,"];
    ["              .markdown-body code,"];
    ["              .markdown-body blockquote {"];
    ["                color: #24292e;"];
    ["              }"];
    ["              .markdown-body pre {"];
    ["                background-color: #f6f8fa;"];
    ["              }"];
    ["              .markdown-body code {"];
    ["                background-color: #f6f8fa;"];
    ["                color: #24292e;"];
    ["                word-wrap: break-word;"];
    ["                white-space: pre-wrap;"];
    ["              }"];
    ["              .markdown-body table {"];
    ["                border-collapse: collapse;"];
    ["                display: block;"];
    ["                width: 100%;"];
    ["                overflow-x: auto;"];
    ["              }"];
    ["              .markdown-body table th,"];
    ["              .markdown-body table td {"];
    ["                border: 1px solid #e1e4e8;"];
    ["                padding: 6px 13px;"];
    ["              }"];
    ["              .markdown-body table tr {"];
    ["                background-color: #ffffff;"];
    ["                border-top: 1px solid #e1e4e8;"];
    ["              }"];
    ["              .markdown-body table tr:nth-child(2n) {"];
    ["                background-color: #f6f8fa;"];
    ["              }"];
    ["              .markdown-body img {"];
    ["                max-width: 100%;"];
    ["                height: auto;"];
    ["                display: block;"];
    ["                margin: 1rem auto;"];
    ["              }"];
    ["              .markdown-body blockquote {"];
    ["                border-left: 4px solid #dfe2e5;"];
    ["                padding: 0 1em;"];
    ["                color: #6a737d;"];
    ["              }"];
    ["              @media (max-width: 767px) {"];
    ["                .markdown-body {"];
    ["                  padding: 20px;"];
    ["                  margin: 10px;"];
    ["                  border-radius: 4px;"];
    ["                  font-size: 16px;"];
    ["                  width: auto;"];
    ["                }"];
    ["                .markdown-body h1 {"];
    ["                  font-size: 1.8rem;"];
    ["                  word-break: break-word;"];
    ["                }"];
    ["                .markdown-body h2 {"];
    ["                  font-size: 1.5rem;"];
    ["                }"];
    ["                .markdown-body h3 {"];
    ["                  font-size: 1.3rem;"];
    ["                }"];
    ["                .markdown-body pre {"];
    ["                  padding: 12px;"];
    ["                  border-radius: 4px;"];
    ["                }"];
    ["                .control-bar {"];
    ["                  padding: 10px;"];
    ["                  flex-direction: column;"];
    ["                  align-items: flex-start;"];
    ["                }"];
    ["                .instruction {"];
    ["                  font-size: 13px;"];
    ["                  margin-bottom: 10px;"];
    ["                  width: 100%;"];
    ["                }"];
    ["                .buttons {"];
    ["                  width: 100%;"];
    ["                  justify-content: space-between;"];
    ["                }"];
    ["                .btn {"];
    ["                  padding: 8px 12px;"];
    ["                  font-size: 14px;"];
    ["                  flex: 1;"];
    ["                  justify-content: center;"];
    ["                }"];
    ["                .btn i {"];
    ["                  margin-right: 4px;"];
    ["                }"];
    ["              }"];
    ["              /* Override any dark mode settings */"];
    ["              html, body {"];
    ["                background-color: #ffffff !important;"];
    ["                color: #24292e !important;"];
    ["              }"];
    ["              /* Hide control bar when printing */"];
    ["              @media print {"];
    ["                .control-bar {"];
    ["                  display: none !important;"];
    ["                }"];
    ["                .markdown-body {"];
    ["                  margin-top: 0;"];
    ["                  padding-top: 0;"];
    ["                  border: none;"];
    ["                  max-width: 100%;"];
    ["                }"];
    ["                body {"];
    ["                  background-color: white;"];
    ["                  -webkit-print-color-adjust: exact;"];
    ["                  print-color-adjust: exact;"];
    ["                }"];
    ["              }"];
    ["            </style>"];
    ["          </head>"];
    ["          <body>"];
    ["            <div class="; "control-bar"; ">"];
    ["              <div class="; "instruction"; ">"];
    ["                <i class="; "fas fa-info-circle"; "></i> Copy and paste this in Google Docs or Word to preserve formatting. Google Docs is recommended."];
    ["              </div>"];
    ["              <div class="; "buttons"; ">"];
    ["                <button id="; "copyBtn"; " class="; "btn"; ">"];
    ["                  <i class="; "fas fa-copy"; "></i> Copy"];
    ["                </button>"];
    ["                <button id="; "printBtn"; " class="; "btn"; ">"];
    ["                  <i class="; "fas fa-download"; "></i> Download"];
    ["                </button>"];
    ["              </div>"];
    ["            </div>"];
    ["            <div class="; "markdown-body"; ">"];
    ["              <div id="; "content"; "></div>"];
    ["            </div>"];
    ["            <script src="; "https://cdn.jsdelivr.net/npm/marked/marked.min.js"; "></script>"];
    ["            <script>"];
    ["              // Parse and render markdown"];
    ["              marked.setOptions({"];
    ["                breaks: true,"];
    ["                gfm: true"];
    ["              });"];
    ["              const markdownContent = "] ].

Definition previewTail : list (list string) :=
  [ [";"];
    ["              document.getElementById('content').innerHTML = marked.parse(markdownContent);"];
    ["              "];
    ["              // Copy button functionality - copy the rendered HTML content"];
    ["              document.getElementById('copyBtn').addEventListener('click', async () => {"];
    ["                try {"];
    ["                  // Get the rendered HTML content"];
    ["                  const contentElement = document.querySelector('.markdown-body');"];
    ["                  "];
    ["                  // Create a range and selection"];
    ["                  const range = document.createRange();"];
    ["                  range.selectNode(contentElement);"];
    ["                  "];
    ["                  // Select the content"];
    ["                  const selection = window.getSelection();"];
    ["                  selection.removeAllRanges();"];
    ["                  selection.addRange(range);"];
    ["                  "];
    ["                  // Execute copy command"];
    ["                  document.execCommand('copy');"];
    ["                  "];
    ["                  // Clear selection"];
    ["                  selection.removeAllRanges();"];
    ["                  "];
    ["                  // Update button to show success"];
    ["                  const btn = document.getElementById('copyBtn');"];
    ["                  btn.innerHTML = '<i class="; "fas fa-check"; "></i> Copied!';"];
    ["                  btn.classList.add('btn-success');"];
    ["                  setTimeout(() => {"];
    ["                    btn.innerHTML = '<i class="; "fas fa-copy"; "></i> Copy';"];
    ["                    btn.classList.remove('btn-success');"];
    ["                  }, 2000);"];
    ["                } catch (err) {"];
    ["                  console.error('Failed to copy content:', err);"];
    ["                }"];
    ["              });"];
    ["              "];
    ["              // Print button functionality (renamed to Download but keeps print functionality)"];
    ["              document.getElementById('printBtn').addEventListener('click', () => {"];
    ["                window.print();"];
    ["              });"];
    ["            </script>"];
    ["          </body>"];
    ["        </html>"];
    ["      "] ].

(** [formData.unitTitle || 'Study Notes Preview']. *)
Definition previewTitle (form : NotesWriter.FormData) : jsstring :=
  if truthy (NotesWriter.unitTitle form) then NotesWriter.unitTitle form
  else js "Study Notes Preview".

(** The document string written to the new window. *)
Definition previewDocument (st : NotesWriter.State) : jsstring :=
  sourceLines previewHead
  ++ previewTitle (NotesWriter.formData st)
  ++ sourceLines previewMiddle
  ++ JSON_stringify (NotesWriter.generatedNotes st)
  ++ sourceLines previewTail.

(** [handlePreviewInNewTab]: nothing is written when [window.open]
    returns no window. *)
Definition handlePreviewInNewTab (st : NotesWriter.State) (windowOpened : bool)
  : option jsstring :=
  if windowOpened then Some (previewDocument st) else None.

(** The text of the inline script of a document: the content of the
    first script element whose start tag has no attribute. *)
Definition inlineScript (document : jsstring) : option jsstring :=
  scriptData <$> after (js "<script>") document.

(** The value that the inline script gives to [markdownContent]: the
    string literal that follows the declaration in the script text. *)
Definition recoveredMarkdown (document : jsstring) : option jsstring :=
  script ← inlineScript document;
  literal ← after (js "const markdownContent = ") script;
  fst <$> readStringLiteral literal.

(** The part of the inline script that precedes the embedded notes. *)
Definition scriptPrologue : jsstring :=
  default [] (after (js "<script>") (sourceLines previewMiddle)).

(** The start tags of the two controls of the control bar. *)
Definition copyControl : jsstring :=
  quoted ["<button id="; "copyBtn"; " class="; "btn"; ">"].

Definition printControl : jsstring :=
  quoted ["<button id="; "printBtn"; " class="; "btn"; ">"].

(** A service whose text for a topic on HTML contains a script
    element, and the state of the page after the notes for that topic
    have been generated. *)
Definition answersWithScriptElement : Service :=
  fun _ _ => Generated (js "Scripts go in <script></script> elements.").

Definition notesOnHtml : NotesWriter.State :=
  fst (NotesWriter.submit answersWithScriptElement (Some (js "k"))
         (NotesWriter.formWith "Web" "HTML")).

End Preview.


(** ** The prompt builders as template literals

    The body of each prompt builder is a single template literal.  Here
    the literal is kept as data: its constant text and, for every
    [${...}], the expression that stands there, so that what the
    builder reads can be told from what is in its scope. *)

Module Template.

(** An interpolated expression: an identifier followed by property
    names, as [context.unitTitle]. *)
Definition Expr := list string.

Inductive Piece : Type :=
| Text (text : jsstring)
| Hole (e : Expr).

(** The values of the expressions in scope when the literal is
    evaluated: the arguments of the builder, and just as well the state
    cells, the API key and whatever else the enclosing component
    holds. *)
Definition Env := Expr -> jsstring.

Fixpoint render (env : Env) (template : list Piece) : jsstring :=
  match template with
  | [] => []
  | Text text :: rest => text ++ render env rest
  | Hole e :: rest => env e ++ render env rest
  end.

(** The expressions a template reads. *)
Fixpoint holes (template : list Piece) : list Expr :=
  match template with
  | [] => []
  | Text _ :: rest => holes rest
  | Hole e :: rest => e :: holes rest
  end.

(** A literal given line by line. *)
Fixpoint ofLines (lines : list (list Piece)) : list Piece :=
  match lines with
  | [] => []
  | [line] => line
  | line :: rest => line ++ Text [LF] :: ofLines rest
  end.

(** The literal returned by [generateTopicPrompt]. *)
Definition topicPromptTemplate : list Piece :=
  [ Text (js "Generate comprehensive study notes for the topic " ++ [DQUOTE]);
    Hole ["topic"];
    Text ([DQUOTE] ++ js " within the unit " ++ [DQUOTE]);
    Hole ["context"; "unitTitle"];
    Text ([DQUOTE] ++ js "." ++ [LF]
          ++ sourceLines NotesWriter.topicPromptBody) ].

(** What the parameters [topic] and [context] of [generateTopicPrompt]
    give access to. *)
Definition topicPromptArguments : list Expr :=
  [ ["topic"]; ["context"; "unitTitle"] ].

(** The literal returned by [generatePrompt]. *)
Definition profilePromptTemplate : list Piece :=
  ofLines
    [ [Text (js "Create a professional GitHub profile README.md with the following information:")];
      [];
      [Text (js "Title: "); Hole ["data"; "title"]];
      [Text (js "Subtitle: "); Hole ["data"; "subtitle"]];
      [];
      [Text (js "Skills:")];
      [Text (js "- Programming Languages: "); Hole ["data"; "programmingSkills"]];
      [Text (js "- Frontend: "); Hole ["data"; "frontendSkills"]];
      [Text (js "- Backend: "); Hole ["data"; "backendSkills"]];
      [Text (js "- Databases: "); Hole ["data"; "databaseSkills"]];
      [Text (js "- Software & Tools: "); Hole ["data"; "softwareSkills"]];
      [];
      [Text (js "Work Experience:")];
      [Hole ["data"; "work"]];
      [];
      [Text (js "Projects:")];
      [Hole ["data"; "projects"]];
      [];
      [Text (js "Social Links:")];
      [Text (js "- GitHub: "); Hole ["data"; "githubLink"]];
      [Text (js "- LeetCode: "); Hole ["data"; "leetcodeLink"]];
      [];
      [Text (js "Please format it beautifully with markdown, including appropriate emojis, badges, and sections. Make it visually appealing and professional.")] ].

(** What the parameter [data] of [generatePrompt] gives access to, in
    the order of [GitHubProfile.fieldsOf]. *)
Definition profilePromptArguments : list Expr :=
  [ ["data"; "title"]; ["data"; "subtitle"]; ["data"; "programmingSkills"];
    ["data"; "frontendSkills"]; ["data"; "backendSkills"];
    ["data"; "databaseSkills"]; ["data"; "softwareSkills"]; ["data"; "work"];
    ["data"; "projects"]; ["data"; "githubLink"]; ["data"; "leetcodeLink"] ].

(** An environment from a list of bindings; every other expression in
    scope has the value [elsewhere]. *)
Fixpoint envOf (bindings : list (Expr * jsstring)) (elsewhere : jsstring)
  : Env :=
  fun e =>
    match bindings with
    | [] => elsewhere
    | (e', v) :: rest =>
        if bool_decide (e = e') then v else envOf rest elsewhere e
    end.

(** The arguments of one call of each builder. *)
Definition sampleArguments : list (Expr * jsstring) :=
  (["topic"], js "Arrays")
  :: (["context"; "unitTitle"], js "Data Structures")
  :: combine profilePromptArguments
       (GitHubProfile.fieldsOf GitHubProfile.testData).

End Template.

(** ** The sidebar *)

Module Sidebar.

(** An entry of [navItems] or [aiTools]; [icon] is the name of the
    icon component. *)
Record NavItem : Type := {
  name : string;
  icon : string;
  path : jsstring
}.

Definition navItems : list NavItem :=
  [ {| name := "Dashboard"; icon := "Home"; path := js "/" |};
    {| name := "Projects"; icon := "Video"; path := js "/projects" |} ].

Definition aiTools : list NavItem :=
  [ {| name := "Project DOC Writer"; icon := "FileText";
       path := js "/doc-maker" |};
    {| name := "LinkedIn Analyzer"; icon := "Linkedin";
       path := js "/linkedin-analyzer" |};
    {| name := "LinkedIn Summary"; icon := "Linkedin";
       path := js "/linkedin-summary" |};
    {| name := "GitHub Profile"; icon := "Github";
       path := js "/github-profile" |};
    {| name := "Notes Writer"; icon := "BookOpen";
       path := js "/notes-writer" |};
    {| name := "Website GPT"; icon := "Globe"; path := js "/website-gpt" |} ].

(** What the component is rendered with: the signed-in user (the
    e-mail address is all the sidebar reads of it), the current
    location, the state of the tools list, and whether an [onClose]
    callback was passed. *)
Record Props : Type := {
  user : option jsstring;
  pathname : jsstring;
  aiToolsOpen : bool;
  hasOnClose : bool
}.

(** The calls a handler makes on the router, on the auth context and
    on its own state setter. *)
Inductive Effect : Type :=
| SetIsLoginModalOpen (v : bool)
| SetPendingPath (p : jsstring)
| Navigate (p : jsstring)
| OnClose
| Logout
| SetAiToolsOpen (v : bool).

(** Truthiness of [user]. *)
Definition signedIn (props : Props) : bool :=
  match user props with
  | Some _ => true
  | None => false
  end.

(** [a === b] on strings. *)
Definition sameString (a b : jsstring) : bool := bool_decide (a = b).

Definition handleNavClick (props : Props) (p : jsstring) : list Effect :=
  if negb (signedIn props) && negb (sameString p (js "/")) then
    [SetIsLoginModalOpen true; SetPendingPath p]
  else
    Navigate p :: (if hasOnClose props then [OnClose] else []).

(** [handleLogout]: the navigation follows the awaited [logout()], so
    it does not happen when that call rejects. *)
Definition handleLogout (logoutSucceeds : bool) : list Effect :=
  if logoutSucceeds then [Logout; Navigate (js "/")] else [Logout].

Definition toggleAiTools (props : Props) : list Effect :=
  [SetAiToolsOpen (negb (aiToolsOpen props))].

(** The entries of the rendered navigation list, in order. *)
Inductive Entry : Type :=
| NavButton (item : NavItem) (active : bool)
| ToolsHeader (active opened : bool)
| SuggestLink
| ProfileButton (active : bool).

Definition itemButton (props : Props) (item : NavItem) : Entry :=
  NavButton item (sameString (pathname props) (path item)).

Definition render (props : Props) : list Entry :=
  map (itemButton props) navItems
  ++ [ToolsHeader
        (existsb (fun tool => sameString (pathname props) (path tool)) aiTools)
        (aiToolsOpen props)]
  ++ (if aiToolsOpen props then map (itemButton props) aiTools else [])
  ++ [SuggestLink]
  ++ (if signedIn props
      then [ProfileButton (sameString (pathname props) (js "/profile"))]
      else []).

(** What a click on an entry does. *)
Definition click (props : Props) (e : Entry) : list Effect :=
  match e with
  | NavButton item _ => handleNavClick props (path item)
  | ToolsHeader _ _ => toggleAiTools props
  | SuggestLink => []
  | ProfileButton _ => handleNavClick props (js "/profile")
  end.

Definition isActive (e : Entry) : bool :=
  match e with
  | NavButton _ active => active
  | ToolsHeader active _ => active
  | SuggestLink => false
  | ProfileButton active => active
  end.

End Sidebar.

(** * Properties *)

Import NotesWriter.

Local Close Scope N_scope.

(** ** Running programs *)

Section Running.

Context (service : Service).

Lemma run_pbind {A B : Type} (p : Prog A) (f : A -> Prog B) (n : nat) :
  run service n (pbind p f) =
  (fst (run service (n + length (callsOf (snd (run service n p))))
          (f (fst (run service n p)))),
   snd (run service n p)
   ++ snd (run service (n + length (callsOf (snd (run service n p))))
             (f (fst (run service n p))))).
Proof.
  revert n. induction p as [a | prompt k IH | promise k IH]; intros n; simpl.
  - rewrite Nat.add_0_r. destruct (run service n (f a)); reflexivity.
  - rewrite IH.
    destruct (run service (S n) (k {| callNumber := n; request := prompt |}))
      as [a ev].
    simpl. replace (n + S (length (callsOf ev)))%nat
      with (S n + length (callsOf ev))%nat by lia.
    reflexivity.
  - rewrite IH.
    destruct (run service n (k (service (callNumber promise) (request promise))))
      as [a ev].
    reflexivity.
Qed.

(** Being sequential is a property of the program, not of [run]: two
    calls issued together give a trace that is not sequential. *)
Lemma bothAtOnce_not_sequential (p1 p2 : jsstring) :
  sequential (snd (run service 0 (bothAtOnce p1 p2))) = false.
Proof. reflexivity. Qed.

Lemma run_processTopic scope n t vars st :
  run service n (processTopic scope t vars st) =
  (afterTopic (vars, st) (t, service n (promptFor scope t)),
   [CallIssued (promptFor scope t);
    CallSettled (service n (promptFor scope t))]).
Proof.
  unfold processTopic, promptFor, bind, modify, generateContent, await, ret,
    afterTopic.
  simpl. destruct (service n _) as [c | e]; simpl; [reflexivity |].
  destruct (includes _ _); reflexivity.
Qed.

Lemma callsOf_traceOf scope os :
  callsOf (traceOf scope os) = map (fun o => promptFor scope (fst o)) os.
Proof.
  induction os as [| [t r] os IH]; simpl; [reflexivity | now rewrite IH].
Qed.

Lemma run_processTopics scope topicList :
  forall n vars st,
    run service n (processTopics scope topicList vars st) =
    (fold_left afterTopic (outcomes service scope n topicList) (vars, st),
     traceOf scope (outcomes service scope n topicList)).
Proof.
  induction topicList as [| t rest IH]; intros n vars st.
  - reflexivity.
  - cbn [processTopics outcomes traceOf fold_left]. unfold bind.
    rewrite run_pbind, run_processTopic. cbn [fst snd callsOf length].
    destruct (afterTopic (vars, st) _) as [vars' st'] eqn:E.
    replace (n + 1)%nat with (S n) by lia. rewrite IH. reflexivity.
Qed.

End Running.

(** ** The loop over the topics *)

Section Loop.

Definition sectionOf (tc : TopicContent) : jsstring :=
  topicSection (topic tc) (content tc).

Lemma afterTopics_locals os :
  forall vars st,
    allContent (fst (fold_left afterTopic os (vars, st)))
    = allContent vars ++ map sectionOf (successes os)
    /\ newTopicContents (fst (fold_left afterTopic os (vars, st)))
       = newTopicContents vars ++ successes os.
Proof.
  induction os as [| [t [c | e]] os IH]; intros vars st; simpl.
  - now rewrite !app_nil_r.
  - destruct (IH
      {| allContent := allContent vars ++ [topicSection t c];
         newTopicContents :=
           newTopicContents vars ++ [{| topic := t; content := c |}] |}
      (setCompletedSections (fun prev => prev ++ [t])
         (setCurrentSection (Some t) st))) as [H1 H2].
    rewrite H1, H2. simpl. now rewrite <- !app_assoc.
  - apply IH.
Qed.

Lemma afterTopics_untouched os :
  forall vars st,
    let st' := snd (fold_left afterTopic os (vars, st)) in
    formData st' = formData st
    /\ generatedNotes st' = generatedNotes st
    /\ topicContents st' = topicContents st
    /\ isLoading st' = isLoading st
    /\ showLoadingModal st' = showLoadingModal st
    /\ showSuccessModal st' = showSuccessModal st.
Proof.
  induction os as [| [t [c | e]] os IH]; intros vars st; simpl.
  - repeat split.
  - match goal with |- context [fold_left afterTopic os (?v, ?s)] =>
      pose proof (IH v s) as H end.
    cbv zeta in H. simpl in H. exact H.
  - destruct (includes _ _);
      match goal with |- context [fold_left afterTopic os (?v, ?s)] =>
        pose proof (IH v s) as H end;
      cbv zeta in H; simpl in H; exact H.
Qed.

Lemma afterTopics_completed os :
  forall vars st,
    completedSections (snd (fold_left afterTopic os (vars, st)))
    = completedSections st ++ map topic (successes os).
Proof.
  induction os as [| [t [c | e]] os IH]; intros vars st; simpl.
  - now rewrite app_nil_r.
  - rewrite IH. simpl. now rewrite <- app_assoc.
  - destruct (includes _ _); rewrite IH; reflexivity.
Qed.

Lemma afterTopics_toasts os :
  forall vars st,
    toasts (snd (fold_left afterTopic os (vars, st)))
    = toasts st ++ map (fun f => failureToast (snd f)) (failures os).
Proof.
  induction os as [| [t [c | e]] os IH]; intros vars st; simpl.
  - now rewrite app_nil_r.
  - rewrite IH. reflexivity.
  - unfold failureToast at 1.
    destruct (includes _ (errorMessageOf e)); rewrite IH; simpl;
      now rewrite <- app_assoc.
Qed.

End Loop.

(** ** The submit handler *)

Lemma submit_accepted (service : Service) (key : option jsstring) (st : State) :
  accepted key st = true ->
  submit service key st =
  (let r := fold_left afterTopic (outcomesOf service key st)
              ({| allContent := [titleHeading (unitTitle (formData st))];
                  newTopicContents := [] |}, cleared st) in
   finished (fst r) (snd r),
   traceOf (scopeOf key st) (outcomesOf service key st)).
Proof.
  unfold accepted. intros H.
  apply andb_prop in H as [H Ht]. apply andb_prop in H as [Hk Hu].
  unfold submit, handleSubmit, outcomesOf.
  change (geminiKey (scopeOf key st)) with key.
  change (rendered (scopeOf key st)) with st.
  rewrite Hk, Hu, Ht. cbn [negb orb].
  unfold bind at 1 2 3 4 5. unfold modify at 1 2 3 4 5. cbn [pbind].
  unfold bind at 1. rewrite run_pbind, run_processTopics.
  cbn [fst snd]. unfold cleared.
  destruct (fold_left afterTopic _ _) as [vars' st'].
  unfold bind, modify. cbn [pbind run fst snd].
  now rewrite app_nil_r.
Qed.

(** ** Facts about runs *)

Section Outcomes.

Context (service : Service) (scope : Scope).

Lemma outcomes_topics topicList :
  forall n, map fst (outcomes service scope n topicList) = topicList.
Proof.
  induction topicList as [| t rest IH]; intros n; simpl;
    [reflexivity | now rewrite IH].
Qed.

Lemma outcomes_app l1 l2 :
  forall n,
    outcomes service scope n (l1 ++ l2)
    = outcomes service scope n l1
      ++ outcomes service scope (n + length l1) l2.
Proof.
  induction l1 as [| t l1 IH]; intros n; simpl.
  - now rewrite Nat.add_0_r.
  - rewrite IH. now replace (S n + length l1)%nat with (n + S (length l1))%nat by lia.
Qed.

Lemma outcomes_lookup (topicList : list jsstring) :
  forall n j t,
    topicList !! j = Some t ->
    In (t, service (n + j) (promptFor scope t))
       (outcomes service scope n topicList).
Proof.
  induction topicList as [| t0 rest IH]; intros n j t H.
  - discriminate.
  - destruct j as [| j]; simpl in *.
    + injection H as ->. left. now rewrite Nat.add_0_r.
    + right. replace (n + S j)%nat with (S n + j)%nat by lia. now apply IH.
Qed.

Lemma sequential_traceOf os : sequential (traceOf scope os) = true.
Proof. induction os as [| [t r] os IH]; simpl; [reflexivity | exact IH]. Qed.

Lemma successes_In os t c :
  In (t, Generated c) os -> In {| topic := t; content := c |} (successes os).
Proof.
  induction os as [| [t0 [c0 | e0]] os IH]; simpl; intros H.
  - contradiction.
  - destruct H as [H | H]; [injection H as -> ->; now left | right; auto].
  - destruct H as [H | H]; [discriminate | auto].
Qed.

Lemma successes_none os :
  (forall o, In o os -> exists e, snd o = Threw e) -> successes os = [].
Proof.
  induction os as [| [t r] os IH]; simpl; intros H; [reflexivity |].
  destruct (H (t, r) (or_introl eq_refl)) as [e He]. simpl in He. subst r.
  apply IH. intros o Ho. apply H. now right.
Qed.

Lemma outcomes_In (topicList : list jsstring) :
  forall n o,
    In o (outcomes service scope n topicList) ->
    exists j, topicList !! j = Some (fst o)
              /\ snd o = service (n + j) (promptFor scope (fst o)).
Proof.
  induction topicList as [| t rest IH]; intros n o H; simpl in H.
  - contradiction.
  - destruct H as [<- | H].
    + exists 0%nat. simpl. now rewrite Nat.add_0_r.
    + destruct (IH _ _ H) as (j & Hj & Hs). exists (S j). simpl.
      split; [exact Hj |].
      now replace (n + S j)%nat with (S n + j)%nat by lia.
Qed.

End Outcomes.

Lemma concat_map_In {A : Type} (f : A -> jsstring) (x : A) (l : list A) :
  In x l -> exists pre post, concat (map f l) = pre ++ f x ++ post.
Proof.
  induction l as [| y l IH]; simpl; intros H; [contradiction |].
  destruct H as [-> | H].
  - exists [], (concat (map f l)). reflexivity.
  - destruct (IH H) as (pre & post & E). exists (f y ++ pre), post.
    rewrite E. now rewrite <- app_assoc.
Qed.

Lemma specNotes_sections u generated :
  specNotes u generated = join (titleHeading u :: map sectionOf generated).
Proof.
  unfold specNotes, join, titleHeading. simpl. rewrite <- !app_assoc.
  reflexivity.
Qed.

(** ** What a submission leaves behind *)

Section Accepted.

Context (service : Service) (key : option jsstring) (st : State).
Context (Haccepted : accepted key st = true).

Lemma submit_events : snd (submit service key st) = traceOf (scopeOf key st) (outcomesOf service key st).
Proof. now rewrite submit_accepted. Qed.

Lemma submit_notes :
  generatedNotes (fst (submit service key st))
  = specNotes (unitTitle (formData st)) (successes (outcomesOf service key st)).
Proof.
  rewrite submit_accepted by assumption. cbn [fst].
  unfold finished. cbn [generatedNotes setCurrentSection setShowLoadingModal
    setIsLoading setShowSuccessModal setTopicContents setGeneratedNotes].
  match goal with |- context [fold_left afterTopic ?o (?v, ?s)] =>
    destruct (afterTopics_locals o v s) as [H _] end.
  rewrite H. cbn [allContent].
  now rewrite specNotes_sections.
Qed.

Lemma submit_topicContents :
  topicContents (fst (submit service key st)) = successes (outcomesOf service key st).
Proof.
  rewrite submit_accepted by assumption. cbn [fst].
  unfold finished. cbn [topicContents setCurrentSection setShowLoadingModal
    setIsLoading setShowSuccessModal setTopicContents setGeneratedNotes].
  match goal with |- context [fold_left afterTopic ?o (?v, ?s)] =>
    destruct (afterTopics_locals o v s) as [_ H] end.
  now rewrite H.
Qed.

Lemma submit_completedSections :
  completedSections (fst (submit service key st)) = map topic (successes (outcomesOf service key st)).
Proof.
  rewrite submit_accepted by assumption. cbn [fst].
  unfold finished. cbn [completedSections setCurrentSection
    setShowLoadingModal setIsLoading setShowSuccessModal setTopicContents
    setGeneratedNotes].
  now rewrite afterTopics_completed.
Qed.

Lemma submit_toasts :
  toasts (fst (submit service key st))
  = toasts st ++ map (fun f => failureToast (snd f)) (failures (outcomesOf service key st)).
Proof.
  rewrite submit_accepted by assumption. cbn [fst].
  unfold finished. cbn [toasts setCurrentSection
    setShowLoadingModal setIsLoading setShowSuccessModal setTopicContents
    setGeneratedNotes].
  now rewrite afterTopics_toasts.
Qed.

Lemma submit_showSuccessModal :
  showSuccessModal (fst (submit service key st)) = true.
Proof. now rewrite submit_accepted. Qed.

End Accepted.

(** ** Splitting the topics field *)

Section Topics.

Local Open Scope N_scope.

Lemma split_nonempty sep s : split sep s <> [].
Proof.
  destruct s as [| c rest]; simpl; [discriminate |].
  destruct (c =? sep); [discriminate |].
  destruct (split sep rest); discriminate.
Qed.

Lemma joinWith_cons sep p q rest :
  joinWith sep (p :: q :: rest) = p ++ sep ++ joinWith sep (q :: rest).
Proof. reflexivity. Qed.

(** Joining the fragments with the separator gives the string back. *)
Lemma split_join sep s : joinWith [sep] (split sep s) = s.
Proof.
  induction s as [| c rest IH]; [reflexivity |].
  simpl split. destruct (N.eqb_spec c sep) as [-> | Hne].
  - destruct (split sep rest) as [| q frags] eqn:E;
      [now apply split_nonempty in E |].
    rewrite joinWith_cons, IH. reflexivity.
  - destruct (split sep rest) as [| q frags] eqn:E;
      [now apply split_nonempty in E |].
    destruct frags as [| q' frags].
    + simpl in *. now rewrite IH.
    + rewrite joinWith_cons. rewrite joinWith_cons in IH.
      rewrite <- IH. reflexivity.
Qed.

Lemma trimStart_nil s :
  trimStart s = [] <-> forallb isWhiteSpace s = true.
Proof.
  induction s as [| c rest IH]; simpl; [tauto |].
  destruct (isWhiteSpace c); simpl; [exact IH |].
  split; discriminate.
Qed.

Lemma trimStart_preserves_nonwhite s :
  forallb isWhiteSpace s = false -> forallb isWhiteSpace (trimStart s) = false.
Proof.
  induction s as [| c rest IH]; simpl; [discriminate |].
  destruct (isWhiteSpace c) eqn:E; simpl; [exact IH |].
  intros _. now rewrite E.
Qed.

Lemma forallb_rev {A : Type} (f : A -> bool) (l : list A) :
  forallb f (rev l) = forallb f l.
Proof.
  induction l as [| x l IH]; simpl; [reflexivity |].
  rewrite forallb_app, IH. simpl. rewrite andb_true_r. apply andb_comm.
Qed.

(** A fragment trims to the empty string exactly when it consists of
    white space only. *)
Lemma trim_truthy s : truthy (trim s) = negb (forallb isWhiteSpace s).
Proof.
  unfold trim, trimEnd.
  destruct (forallb isWhiteSpace s) eqn:E; simpl.
  - apply trimStart_nil in E. rewrite E. reflexivity.
  - apply trimStart_preserves_nonwhite in E.
    rewrite <- forallb_rev in E.
    destruct (trimStart (rev (trimStart s))) as [| c r] eqn:E2.
    + apply trimStart_nil in E2. congruence.
    + destruct (rev (c :: r)) eqn:E3; [| reflexivity].
      apply (f_equal (@length _)) in E3. rewrite length_rev in E3.
      discriminate.
Qed.

Lemma filter_map_length {A B : Type} (f : A -> B) (p : B -> bool) (l : list A) :
  length (List.filter p (map f l)) = length (List.filter (fun x => p (f x)) l).
Proof.
  induction l as [| x l IH]; simpl; [reflexivity |].
  destruct (p (f x)); simpl; now rewrite IH.
Qed.

Lemma filter_ext_length {A : Type} (p q : A -> bool) (l : list A) :
  (forall x, p x = q x) ->
  length (List.filter p l) = length (List.filter q l).
Proof.
  intros H. induction l as [| x l IH]; simpl; [reflexivity |].
  rewrite H. destruct (q x); simpl; now rewrite IH.
Qed.

Lemma splitTopics_truthy s : Forall (fun t => t <> []) (splitTopics s).
Proof.
  apply Forall_forall. intros t Ht. apply list_elem_of_In in Ht.
  unfold splitTopics in Ht.
  apply filter_In in Ht as [_ Ht]. now destruct t.
Qed.

Lemma splitTopics_field_truthy s : splitTopics s <> [] -> truthy s = true.
Proof. destruct s; [intros H; now elim H | reflexivity]. Qed.

End Topics.

(** ** Fragments and what trimming leaves of them *)

Section Fragments.

Local Open Scope N_scope.

(** The code units of a fragment are code units of the string other
    than the separator. *)
Lemma split_fragment_units sep s :
  forall f c, In f (split sep s) -> In c f -> In c s /\ c <> sep.
Proof.
  induction s as [| x rest IH]; intros f c Hf Hc; simpl in Hf.
  - destruct Hf as [<- | []]. contradiction.
  - destruct (N.eqb_spec x sep) as [-> | Hne].
    + destruct Hf as [<- | Hf]; [contradiction |].
      destruct (IH f c Hf Hc). split; [now right | assumption].
    + destruct (split sep rest) as [| q frags] eqn:E;
        [now apply split_nonempty in E |].
      destruct Hf as [<- | Hf].
      * destruct Hc as [<- | Hc]; [split; [now left | assumption] |].
        destruct (IH q c (or_introl eq_refl) Hc). split; [now right | assumption].
      * destruct (IH f c (or_intror Hf) Hc). split; [now right | assumption].
Qed.

Lemma trimStart_decompose s :
  exists w, s = w ++ trimStart s /\ forallb isWhiteSpace w = true.
Proof.
  induction s as [| c rest (w & Hw & Hws)]; [now exists [] |].
  simpl. destruct (isWhiteSpace c) eqn:E.
  - exists (c :: w). simpl. rewrite E, Hws. split; [now f_equal | reflexivity].
  - now exists [].
Qed.

Lemma trimStart_fixed s :
  match s with
  | [] => True
  | c :: _ => isWhiteSpace c = false
  end ->
  trimStart s = s.
Proof. destruct s as [| c rest]; [reflexivity |]. simpl. now intros ->. Qed.

Lemma trimStart_head s :
  match trimStart s with
  | [] => True
  | c :: _ => isWhiteSpace c = false
  end.
Proof.
  induction s as [| c rest IH]; [exact I |].
  simpl. destruct (isWhiteSpace c) eqn:E; [exact IH | exact E].
Qed.

(** [trim] removes white space at both ends and nothing else. *)
Lemma trim_decompose s :
  exists lead trail,
    s = lead ++ trim s ++ trail
    /\ forallb isWhiteSpace lead = true
    /\ forallb isWhiteSpace trail = true.
Proof.
  destruct (trimStart_decompose s) as (w1 & H1 & Hw1).
  destruct (trimStart_decompose (rev (trimStart s))) as (w2 & H2 & Hw2).
  exists w1, (rev w2). unfold trim, trimEnd. repeat split.
  - rewrite H1 at 1. f_equal.
    rewrite <- (rev_involutive (trimStart s)) at 1.
    rewrite H2 at 1. now rewrite rev_app_distr.
  - exact Hw1.
  - now rewrite forallb_rev.
Qed.

Lemma trim_fixed s :
  match s with
  | [] => True
  | c :: _ => isWhiteSpace c = false
  end ->
  match rev s with
  | [] => True
  | c :: _ => isWhiteSpace c = false
  end ->
  trim s = s.
Proof.
  intros Hhead Hlast. unfold trim, trimEnd.
  rewrite (trimStart_fixed s Hhead), (trimStart_fixed (rev s) Hlast).
  apply rev_involutive.
Qed.

Lemma trim_idempotent s : trim (trim s) = trim s.
Proof.
  apply trim_fixed.
  - unfold trim, trimEnd.
    pose proof (trimStart_head s) as Hh.
    destruct (trimStart_decompose (rev (trimStart s))) as (w & Hw & Hws).
    destruct (trimStart s) as [| c a] eqn:Ea; [exact I |].
    assert (Hrev : c :: a = rev (trimStart (rev (c :: a))) ++ rev w).
    { rewrite <- (rev_involutive (c :: a)) at 1. rewrite Hw at 1.
      now rewrite rev_app_distr. }
    destruct (rev (trimStart (rev (c :: a)))) as [| d b] eqn:Eb.
    + simpl in Hrev. assert (Hc : In c (rev w)) by (rewrite <- Hrev; now left).
      apply in_rev in Hc.
      rewrite forallb_forall in Hws. specialize (Hws c Hc). congruence.
    + simpl in Hrev. injection Hrev as <- _. exact Hh.
  - unfold trim, trimEnd. rewrite rev_involutive. apply trimStart_head.
Qed.

Lemma trim_units s c : In c (trim s) -> In c s.
Proof.
  destruct (trim_decompose s) as (lead & trail & H & _ & _).
  intros Hc. rewrite H. apply in_or_app. right. apply in_or_app. now left.
Qed.

(** Splitting what was joined gives the fragments back, when none of
    them contains the separator. *)
Lemma split_joinWith sep frags :
  frags <> [] ->
  Forall (fun f => ~ In sep f) frags ->
  split sep (joinWith [sep] frags) = frags.
Proof.
  intros Hne Hfree. induction Hfree as [| f frags Hf Hfree IH]; [now elim Hne |].
  clear Hne. destruct frags as [| g frags].
  - simpl. clear IH Hfree. induction f as [| c f IHf]; [reflexivity |].
    simpl. destruct (N.eqb_spec c sep) as [-> | _]; [elim Hf; now left |].
    rewrite IHf by (intros H; apply Hf; now right). reflexivity.
  - rewrite joinWith_cons. specialize (IH ltac:(discriminate)).
    induction f as [| c f IHf].
    + cbn [app split]. rewrite N.eqb_refl. f_equal. exact IH.
    + cbn [app split].
      destruct (N.eqb_spec c sep) as [-> | _]; [elim Hf; now left |].
      specialize (IHf ltac:(intros H; apply Hf; now right)).
      match goal with
      | |- match ?x with _ => _ end = _ =>
          replace x with (f :: g :: frags) by (symmetry; exact IHf)
      end.
      reflexivity.
Qed.

Lemma count_split sep s :
  length (split sep s)
  = S (length (List.filter (fun c => c =? sep) s)).
Proof.
  induction s as [| c rest IH]; [reflexivity |].
  simpl. destruct (c =? sep); simpl; [now rewrite IH |].
  destruct (split sep rest) as [| q frags] eqn:E;
    [now apply split_nonempty in E |].
  exact IH.
Qed.

Lemma trim_first s :
  match trim s with
  | [] => True
  | c :: _ => isWhiteSpace c = false
  end.
Proof.
  unfold trim, trimEnd.
  pose proof (trimStart_head s) as Hh.
  destruct (trimStart_decompose (rev (trimStart s))) as (w & Hw & Hws).
  destruct (trimStart s) as [| c a] eqn:Ea; [exact I |].
  assert (Hrev : c :: a = rev (trimStart (rev (c :: a))) ++ rev w).
  { rewrite <- (rev_involutive (c :: a)) at 1. rewrite Hw at 1.
    now rewrite rev_app_distr. }
  destruct (rev (trimStart (rev (c :: a)))) as [| d b] eqn:Eb; [exact I |].
  simpl in Hrev. injection Hrev as <- _. exact Hh.
Qed.

Lemma trim_last s :
  match rev (trim s) with
  | [] => True
  | c :: _ => isWhiteSpace c = false
  end.
Proof. unfold trim, trimEnd. rewrite rev_involutive. apply trimStart_head. Qed.

(** What [trim] leaves, when it leaves anything, neither begins nor
    ends with white space. *)
Lemma trim_cleanEnds s : truthy (trim s) = true -> cleanEnds (trim s) = true.
Proof.
  intros Ht. unfold cleanEnds.
  pose proof (trim_first s) as Hf. pose proof (trim_last s) as Hl.
  destruct (trim s) as [| c t] eqn:E; [discriminate |].
  rewrite Hf. cbn [negb andb].
  destruct (rev (c :: t)) as [| d r] eqn:Er.
  - apply (f_equal (@length _)) in Er. rewrite length_rev in Er. discriminate.
  - now rewrite Hl.
Qed.

End Fragments.

Lemma submit_calls (service : Service) (key : option jsstring) (st : State) :
  accepted key st = true ->
  callsOf (snd (submit service key st))
  = map (promptFor (scopeOf key st)) (splitTopics (topics (formData st))).
Proof.
  intros Ha. rewrite submit_events by assumption. rewrite callsOf_traceOf.
  rewrite <- map_map. unfold outcomesOf. now rewrite outcomes_topics.
Qed.

(** A submission stopped by one of the two guards issues no call and
    writes none of the cells of the notes. *)
Lemma submit_rejected (service : Service) (key : option jsstring) (st : State) :
  accepted key st = false ->
  snd (submit service key st) = []
  /\ generatedNotes (fst (submit service key st)) = generatedNotes st
  /\ topicContents (fst (submit service key st)) = topicContents st
  /\ completedSections (fst (submit service key st)) = completedSections st.
Proof.
  unfold accepted, submit, handleSubmit.
  change (geminiKey (scopeOf key st)) with key.
  change (rendered (scopeOf key st)) with st.
  destruct (keyPresent key); cbn [andb negb]; [| cbn; repeat split].
  destruct (truthy (unitTitle (formData st))); cbn [andb negb orb];
    [| intros _; cbn; repeat split].
  intros ->. cbn. repeat split.
Qed.

Lemma rejected_cases (key : option jsstring) (st : State) :
  keyPresent key = false
  \/ unitTitle (formData st) = [] \/ topics (formData st) = [] ->
  accepted key st = false.
Proof.
  unfold accepted. intros [-> | [-> | ->]]; [reflexivity | |].
  - cbn. now rewrite andb_false_r.
  - cbn. now rewrite andb_false_r.
Qed.

(** ** The sequential generation driver *)

(** C1, as stated, fails: a form with an empty unit title whose topics
    field yields the non-empty list [["a"]] is submitted with an API
    key present, and the handler returns at its second guard without
    issuing any call. *)
Lemma submit_without_unit_title_issues_no_call :
  splitTopics (topics (formData (formWith "" "a"))) = [js "a"]
  /\ callsOf (snd (submit alwaysGenerates (Some (js "k")) (formWith "" "a")))
     = []
  /\ callsOf (snd (submit alwaysGenerates (Some (js "k")) (formWith "" "a")))
     <> map (promptFor (scopeOf (Some (js "k")) (formWith "" "a")))
            (splitTopics (topics (formData (formWith "" "a")))).
Proof. repeat split. vm_compute. discriminate. Qed.

(** C1 (amended): when the API key is present and the unit title is
    not empty, a submitted form whose topics field yields the non-empty
    list [t1, ..., tn] makes the handler issue exactly one call per
    topic, with the prompt of that topic, in the order t1, ..., tn,
    and every call is settled before the next one is issued. *)
Theorem handleSubmit_one_call_per_topic
  (service : Service) (key : option jsstring) (st : State) :
  keyPresent key = true ->
  truthy (unitTitle (formData st)) = true ->
  splitTopics (topics (formData st)) <> [] ->
  let topicList := splitTopics (topics (formData st)) in
  let events := snd (submit service key st) in
  callsOf events = map (promptFor (scopeOf key st)) topicList
  /\ length (callsOf events) = length topicList
  /\ sequential events = true
  /\ events = traceOf (scopeOf key st) (outcomesOf service key st).
Proof.
  intros Hk Hu Hl topicList events.
  assert (Ha : accepted key st = true).
  { unfold accepted. rewrite Hk, Hu. now apply splitTopics_field_truthy. }
  assert (He : events = traceOf (scopeOf key st) (outcomesOf service key st))
    by now apply submit_events.
  assert (Hc : callsOf events = map (promptFor (scopeOf key st)) topicList)
    by now apply submit_calls.
  repeat split; [exact Hc | | | exact He].
  - now rewrite Hc, length_map.
  - rewrite He. apply sequential_traceOf.
Qed.

Lemma handleSubmit_one_call_per_topic_witness :
  callsOf (snd (submit failsSecondCall (Some (js "k")) (formWith "u" "a, b")))
  = map (promptFor (scopeOf (Some (js "k")) (formWith "u" "a, b")))
        [js "a"; js "b"].
Proof.
  apply (handleSubmit_one_call_per_topic failsSecondCall (Some (js "k"))
           (formWith "u" "a, b")).
  - reflexivity.
  - reflexivity.
  - vm_compute. discriminate.
Defined.

(** C2: in every run of the driver, the final generated notes are the
    title heading followed by one section per successful topic, in
    input order, and the stored topic contents are exactly the pairs
    of the successful topics with their contents, in input order. *)
Theorem handleSubmit_notes_and_topic_contents
  (service : Service) (key : option jsstring) (st : State) :
  accepted key st = true ->
  let generated := successes (outcomesOf service key st) in
  let st' := fst (submit service key st) in
  generatedNotes st' = specNotes (unitTitle (formData st)) generated
  /\ topicContents st' = generated.
Proof.
  intros Ha generated st'. split.
  - now apply submit_notes.
  - now apply submit_topicContents.
Qed.

Lemma handleSubmit_notes_and_topic_contents_witness :
  generatedNotes
    (fst (submit failsSecondCall (Some (js "k")) (formWith "u" "a, b, c")))
  = js "# u" ++ [LF] ++ [LF; LF] ++ js "## a" ++ [LF; LF] ++ js "text"
    ++ [LF; LF] ++ js "## c" ++ [LF; LF] ++ js "text"
  /\ topicContents
       (fst (submit failsSecondCall (Some (js "k")) (formWith "u" "a, b, c")))
     = [ {| topic := js "a"; content := js "text" |};
         {| topic := js "c"; content := js "text" |} ].
Proof.
  apply (handleSubmit_notes_and_topic_contents failsSecondCall
           (Some (js "k")) (formWith "u" "a, b, c")).
  reflexivity.
Defined.

(** C3: a failed call does not abort the run.  When the call for one
    topic fails, the calls for all topics of the list, also those after
    it, are still issued, and every later topic whose call succeeds
    is in the stored topic contents and has its section in the final
    generated notes: after the title heading the notes contain two
    line feeds, [## ] and the topic, two line feeds and the generated
    content. *)
Theorem failure_does_not_abort
  (service : Service) (key : option jsstring) (st : State)
  (before later : list jsstring) (failed : jsstring) (e : Thrown) :
  accepted key st = true ->
  splitTopics (topics (formData st)) = before ++ failed :: later ->
  service (length before) (promptFor (scopeOf key st) failed) = Threw e ->
  let st' := fst (submit service key st) in
  let events := snd (submit service key st) in
  callsOf events
  = map (promptFor (scopeOf key st)) (before ++ failed :: later)
  /\ forall (j : nat) (t c : jsstring),
       later !! j = Some t ->
       service (length before + 1 + j)%nat (promptFor (scopeOf key st) t)
       = Generated c ->
       In {| topic := t; content := c |} (topicContents st')
       /\ exists earlier following,
            generatedNotes st'
            = js "# " ++ unitTitle (formData st) ++ [LF]
              ++ earlier
              ++ ([LF; LF] ++ js "## " ++ t ++ [LF; LF] ++ c)
              ++ following.
Proof.
  intros Ha Hl Hf st' events. split.
  - subst events. rewrite submit_calls by assumption. now rewrite Hl.
  - intros j t c Hj Hc.
    assert (Hin : In {| topic := t; content := c |}
                    (successes (outcomesOf service key st))).
    { apply successes_In. unfold outcomesOf. rewrite Hl.
      change (before ++ failed :: later) with (before ++ [failed] ++ later).
      rewrite app_assoc, outcomes_app. apply in_or_app. right.
      rewrite <- Hc.
      replace (length before + 1 + j)%nat
        with (0 + length (before ++ [failed]) + j)%nat
        by (rewrite length_app; simpl; lia).
      now apply outcomes_lookup. }
    split.
    + subst st'. now rewrite submit_topicContents.
    + subst st'. rewrite submit_notes by assumption. unfold specNotes.
      destruct (concat_map_In
                  (fun tc => [LF; LF] ++ js "## " ++ topic tc ++ [LF; LF]
                             ++ content tc) _ _ Hin)
        as (earlier & following & E).
      exists earlier, following. cbn [topic content] in E.
      do 3 apply (f_equal2 (@app char16) eq_refl). exact E.
Qed.

Lemma failure_does_not_abort_witness :
  callsOf (snd (submit failsSecondCall (Some (js "k")) (formWith "u" "a, b, c")))
  = map (promptFor (scopeOf (Some (js "k")) (formWith "u" "a, b, c")))
        ([js "a"] ++ js "b" :: [js "c"])
  /\ forall (j : nat) (t c : jsstring),
       [js "c"] !! j = Some t ->
       failsSecondCall (length [js "a"] + 1 + j)%nat
         (promptFor (scopeOf (Some (js "k")) (formWith "u" "a, b, c")) t)
       = Generated c ->
       In {| topic := t; content := c |}
          (topicContents
             (fst (submit failsSecondCall (Some (js "k"))
                     (formWith "u" "a, b, c"))))
       /\ exists earlier following,
            generatedNotes
              (fst (submit failsSecondCall (Some (js "k"))
                      (formWith "u" "a, b, c")))
            = js "# " ++ unitTitle (formData (formWith "u" "a, b, c")) ++ [LF]
              ++ earlier
              ++ ([LF; LF] ++ js "## " ++ t ++ [LF; LF] ++ c)
              ++ following.
Proof.
  apply (failure_does_not_abort failsSecondCall (Some (js "k"))
           (formWith "u" "a, b, c") [js "a"] [js "c"] (js "b")
           (ErrorInstance (js "quota exceeded"))).
  - reflexivity.
  - reflexivity.
  - reflexivity.
Defined.

(** C4, as stated, fails: nothing the driver writes records which
    topic failed.  With the same service, in which the second call
    fails, the run over the topics [a,b] leaves the topic [a] in the
    topic contents and in the completed sections, one toast with the
    fixed text of the generation failed toast, and no current
    section; the run over the topics [a,c] leaves exactly the same
    notes, topic contents, completed sections, flags, toasts and
    console messages, although the failed topic is [b] in one run and
    [c] in the other. *)
Lemma failed_topic_is_not_recorded :
  map fst (failures (outcomesOf failsSecondCall (Some (js "k"))
                       (formWith "u" "a,b")))
  = [js "b"]
  /\ map fst (failures (outcomesOf failsSecondCall (Some (js "k"))
                          (formWith "u" "a,c")))
     = [js "c"]
  /\ written (fst (submit failsSecondCall (Some (js "k")) (formWith "u" "a,b")))
     = (js "# u" ++ [LF] ++ [LF; LF] ++ js "## a" ++ [LF; LF] ++ js "text",
        [ {| topic := js "a"; content := js "text" |} ],
        [js "a"],
        None,
        (false, false, true, false),
        ([generationFailedToast],
         [ {| label := "Error generating notes:";
              logged := ErrorInstance (js "quota exceeded") |} ]))
  /\ written (fst (submit failsSecondCall (Some (js "k")) (formWith "u" "a,c")))
     = written (fst (submit failsSecondCall (Some (js "k"))
                       (formWith "u" "a,b"))).
Proof. repeat split. Qed.

(** C4 (amended): in every run of the driver each failed call is
    reported, not collected.  For every topic whose call fails the
    driver shows one destructive toast, in input order (the invalid
    key toast when the error message contains [API key], the
    generation failed toast otherwise), and the failed topic is left
    out of the stored topic contents and of the completed sections,
    which hold the successful topics only. *)
Theorem failures_are_reported_by_toasts
  (service : Service) (key : option jsstring) (st : State) :
  accepted key st = true ->
  let os := outcomesOf service key st in
  let st' := fst (submit service key st) in
  toasts st' = toasts st ++ map (fun f => failureToast (snd f)) (failures os)
  /\ length (toasts st') = (length (toasts st) + length (failures os))%nat
  /\ topicContents st' = successes os
  /\ completedSections st' = map topic (successes os).
Proof.
  intros Ha os st'.
  assert (Ht : toasts st'
               = toasts st ++ map (fun f => failureToast (snd f)) (failures os))
    by now apply submit_toasts.
  repeat split.
  - exact Ht.
  - now rewrite Ht, length_app, length_map.
  - now apply submit_topicContents.
  - now apply submit_completedSections.
Qed.

Lemma failures_are_reported_by_toasts_witness :
  toasts (fst (submit failsSecondCall (Some (js "k")) (formWith "u" "a,b")))
  = [] ++ [generationFailedToast]
  /\ length (toasts (fst (submit failsSecondCall (Some (js "k"))
                            (formWith "u" "a,b")))) = (0 + 1)%nat
  /\ topicContents (fst (submit failsSecondCall (Some (js "k"))
                           (formWith "u" "a,b")))
     = [ {| topic := js "a"; content := js "text" |} ]
  /\ completedSections (fst (submit failsSecondCall (Some (js "k"))
                               (formWith "u" "a,b")))
     = [js "a"].
Proof.
  apply (failures_are_reported_by_toasts failsSecondCall (Some (js "k"))
           (formWith "u" "a,b")).
  reflexivity.
Defined.

(** C8: when the API key is absent (missing or empty), or the unit
    title is empty, or the topics field is empty, the handler issues
    no call and leaves the generated notes, the topic contents and the
    completed sections as they were. *)
Theorem handleSubmit_guards
  (service : Service) (key : option jsstring) (st : State) :
  keyPresent key = false
  \/ unitTitle (formData st) = [] \/ topics (formData st) = [] ->
  let st' := fst (submit service key st) in
  snd (submit service key st) = []
  /\ generatedNotes st' = generatedNotes st
  /\ topicContents st' = topicContents st
  /\ completedSections st' = completedSections st.
Proof.
  intros H st'. subst st'. now apply submit_rejected, rejected_cases.
Qed.

Lemma handleSubmit_guards_witness :
  snd (submit alwaysGenerates None (formWith "u" "a")) = []
  /\ generatedNotes (fst (submit alwaysGenerates None (formWith "u" "a"))) = []
  /\ topicContents (fst (submit alwaysGenerates None (formWith "u" "a"))) = []
  /\ completedSections (fst (submit alwaysGenerates None (formWith "u" "a")))
     = [].
Proof.
  apply (handleSubmit_guards alwaysGenerates None (formWith "u" "a")).
  left. reflexivity.
Defined.

(** White space is taken off both ends of every fragment that has
    other content, and fragments without other content are dropped:
    the topics are, in order, the fragments that are not white space
    only, each without the white space before and after it. *)
Lemma trimmed_fragments (fragments : list jsstring) :
  Forall2
    (fun f t =>
       exists lead trail,
         f = lead ++ t ++ trail
         /\ forallb isWhiteSpace lead = true
         /\ forallb isWhiteSpace trail = true)
    (List.filter (fun f => negb (forallb isWhiteSpace f)) fragments)
    (List.filter truthy (map trim fragments)).
Proof.
  induction fragments as [| f fragments IH]; [constructor |].
  cbn [map List.filter]. rewrite trim_truthy.
  destruct (forallb isWhiteSpace f); cbn [negb]; [exact IH |].
  constructor; [| exact IH]. apply trim_decompose.
Qed.

Lemma splitTopics_cleanEnds field :
  Forall (fun t => cleanEnds t = true) (splitTopics field).
Proof.
  apply List.Forall_forall. intros t Ht. unfold splitTopics in Ht.
  apply filter_In in Ht as [Ht Htruthy].
  apply in_map_iff in Ht as (f & <- & _). now apply trim_cleanEnds.
Qed.

Lemma split_without_separator sep s :
  Forall (fun f => ~ In sep f) (split sep s).
Proof.
  apply List.Forall_forall. intros f Hf Hc.
  now destruct (split_fragment_units sep s f sep Hf Hc).
Qed.

(** C9: the topics the driver processes are the fragments of the
    topics field between its commas, trimmed, without the empty ones.
    The fragments contain no comma and, joined by commas, give the
    field back.  The topics are, in order, the fragments that are not
    white space only, each without the white space around it: every
    such fragment is white space, then its topic, then white space,
    and no topic is empty or begins or ends with white space.  The
    calls of a submission that passes the guards are the calls for
    these topics, and a submission stopped by a guard issues none: a
    fragment that is empty or only white space never causes a call.
    The field [a,,b,] is processed as the two topics [a] and [b], and
    a field with blanks, a tab, a line feed and a no-break space around
    its topics as the topics without them. *)
Theorem topics_are_split_trimmed_and_filtered
  (service : Service) (key : option jsstring) (st : State) :
  let field := topics (formData st) in
  let events := snd (submit service key st) in
  callsOf events
  = (if accepted key st
     then map (promptFor (scopeOf key st))
              (List.filter truthy (map trim (split COMMA field)))
     else [])
  /\ joinWith [COMMA] (split COMMA field) = field
  /\ length (callsOf events)
     = (if accepted key st
        then length (List.filter (fun f => negb (forallb isWhiteSpace f))
                       (split COMMA field))
        else 0%nat)
  /\ (forall f, forallb isWhiteSpace f = true -> trim f = [])
  /\ Forall (fun t => t <> []) (splitTopics field)
  /\ splitTopics (js "a,,b,") = [js "a"; js "b"]
  /\ Forall (fun f => ~ In COMMA f) (split COMMA field)
  /\ Forall2
       (fun f t =>
          exists lead trail,
            f = lead ++ t ++ trail
            /\ forallb isWhiteSpace lead = true
            /\ forallb isWhiteSpace trail = true)
       (List.filter (fun f => negb (forallb isWhiteSpace f))
          (split COMMA field))
       (splitTopics field)
  /\ Forall (fun t => cleanEnds t = true) (splitTopics field)
  /\ splitTopics (js " a ,, b " ++ [9; COMMA; 10]%N ++ js "c d" ++ [160]%N)
     = [js "a"; js "b"; js "c d"]
  /\ Forall (fun c => isWhiteSpace c = true) [32; 9; 10; 13; 160]%N.
Proof.
  intros field events.
  assert (Hc : callsOf events
               = if accepted key st
                 then map (promptFor (scopeOf key st)) (splitTopics field)
                 else []).
  { destruct (accepted key st) eqn:Ha; [now apply submit_calls |].
    subst events. destruct (submit_rejected service key st Ha) as [-> _].
    reflexivity. }
  split; [exact Hc |].
  split; [apply split_join |].
  split.
  { rewrite Hc. destruct (accepted key st); [| reflexivity].
    rewrite length_map. unfold splitTopics.
    rewrite filter_map_length. apply filter_ext_length.
    intros f. apply trim_truthy. }
  split.
  { intros f Hf. pose proof (trim_truthy f) as Ht. rewrite Hf in Ht.
    now destruct (trim f). }
  split; [apply splitTopics_truthy |].
  split; [reflexivity |].
  split; [apply split_without_separator |].
  split; [apply trimmed_fragments |].
  split; [apply splitTopics_cleanEnds |].
  split; [reflexivity |].
  repeat constructor.
Qed.

(** C10: when the driver runs over a non-empty topic list and the call
    fails for every topic, the run still ends on its success path: the
    generated notes are the title heading alone, the topic contents
    are empty, and the success modal is shown and reports 0 topics. *)
Theorem all_calls_fail
  (service : Service) (key : option jsstring) (st : State) :
  accepted key st = true ->
  let topicList := splitTopics (topics (formData st)) in
  topicList <> [] ->
  (forall (j : nat) (t : jsstring),
      topicList !! j = Some t ->
      exists e, service j (promptFor (scopeOf key st) t) = Threw e) ->
  let st' := fst (submit service key st) in
  generatedNotes st' = js "# " ++ unitTitle (formData st) ++ [LF]
  /\ topicContents st' = []
  /\ showSuccessModal st' = true
  /\ renderedSuccessModal st'
     = Some ("Notes Generated!",
             [ Text "Your study notes have been successfully generated with ";
               Number 0;
               Text " topics." ]).
Proof.
  intros Ha topicList Hne Hfail st'.
  assert (Hs : successes (outcomesOf service key st) = []).
  { apply successes_none. intros o Ho.
    apply outcomes_In in Ho as (j & Hj & Hr).
    destruct (Hfail j _ Hj) as [e He]. exists e. now rewrite Hr. }
  assert (Hn : generatedNotes st' = js "# " ++ unitTitle (formData st) ++ [LF]).
  { subst st'. rewrite submit_notes by assumption.
    rewrite Hs. unfold specNotes. cbn [map concat]. now rewrite app_nil_r. }
  assert (Ht : topicContents st' = []).
  { subst st'. rewrite submit_topicContents by assumption. exact Hs. }
  assert (Hm : showSuccessModal st' = true)
    by now apply submit_showSuccessModal.
  repeat split; [exact Hn | exact Ht | exact Hm |].
  unfold renderedSuccessModal, SuccessModal. rewrite Hm, Ht. reflexivity.
Qed.

Lemma all_calls_fail_witness :
  generatedNotes (fst (submit alwaysFails (Some (js "k")) (formWith "u" "a, b")))
  = js "# " ++ js "u" ++ [LF]
  /\ topicContents (fst (submit alwaysFails (Some (js "k"))
                           (formWith "u" "a, b"))) = []
  /\ showSuccessModal (fst (submit alwaysFails (Some (js "k"))
                              (formWith "u" "a, b"))) = true
  /\ renderedSuccessModal (fst (submit alwaysFails (Some (js "k"))
                                  (formWith "u" "a, b")))
     = Some ("Notes Generated!",
             [ Text "Your study notes have been successfully generated with ";
               Number 0;
               Text " topics." ]).
Proof.
  apply (all_calls_fail alwaysFails (Some (js "k")) (formWith "u" "a, b")).
  - reflexivity.
  - vm_compute. discriminate.
  - intros j t _. exists (ErrorInstance (js "quota exceeded")). reflexivity.
Defined.

(** ** Form state across page reloads *)

(** C5, as stated, fails for the GitHub profile form: the form written
    by [fillTestData] is gone after a reload in the same session, and
    the page shows the empty form again. *)
Lemma gitHubProfile_form_is_lost_on_reload :
  GitHubProfile.formData
    (fst (Session.reloadGitHubProfile
            (Session.gitHubProfileSetFormData GitHubProfile.testData
               (GitHubProfile.initialState, ∅))))
  = GitHubProfile.emptyForm
  /\ GitHubProfile.emptyForm <> GitHubProfile.testData.
Proof. split; [reflexivity | discriminate]. Qed.

(** C5 (amended): the form state of the notes writer is persisted
    across page reloads within a browser session: the form written by
    one page load is the initial form of the page after a reload in
    the same session.  The GitHub profile form is kept in the state of
    the component only and is the empty form after every reload. *)
Theorem form_state_across_reloads
  (form : NotesWriter.FormData)
  (page : NotesWriter.State * Session.SessionStorage)
  (profileForm : GitHubProfile.FormData)
  (profilePage : GitHubProfile.State * Session.SessionStorage) :
  NotesWriter.formData
    (fst (Session.reloadNotesWriter (Session.notesWriterSetFormData form page)))
  = form
  /\ GitHubProfile.formData
       (fst (Session.reloadGitHubProfile
               (Session.gitHubProfileSetFormData profileForm profilePage)))
     = GitHubProfile.emptyForm.
Proof.
  split; [| reflexivity].
  unfold Session.reloadNotesWriter, Session.notesWriterSetFormData,
    Session.mountNotesWriter, Session.useSessionStorage, Session.storeValue.
  cbn [fst snd NotesWriter.formData].
  now rewrite lookup_insert_eq.
Qed.

(** ** The prompt builders *)

Section Templates.

Import Template.

(** A literal gives the same text in two environments that agree on
    the expressions it reads. *)
Lemma render_agree (env1 env2 : Env) (template : list Piece) :
  (forall e, In e (holes template) -> env1 e = env2 e) ->
  render env1 template = render env2 template.
Proof.
  induction template as [| [text | e] rest IH]; intros H; [reflexivity | |].
  - cbn [render]. f_equal. apply IH. exact H.
  - cbn [render]. rewrite (H e (or_introl eq_refl)). f_equal.
    apply IH. intros e' He'. apply H. now right.
Qed.

Lemma map_agree {A B : Type} (f g : A -> B) (l : list A) :
  map f l = map g l -> forall x, In x l -> f x = g x.
Proof.
  induction l as [| y l IH]; intros H x Hx; [contradiction |].
  injection H as Hy Hl. destruct Hx as [<- | Hx]; [exact Hy | now apply IH].
Qed.

(** The topic literal is the function the driver calls its prompts
    with. *)
Lemma topicPromptTemplate_renders
  (env : Env) (scope : NotesWriter.Scope) (topic : jsstring)
  (context : NotesWriter.TopicContext) :
  map env topicPromptArguments = [topic; context_unitTitle context] ->
  render env topicPromptTemplate = generateTopicPrompt scope topic context.
Proof.
  intros H. injection H as Ht Hu.
  unfold topicPromptTemplate, generateTopicPrompt. cbn [render].
  rewrite Ht, Hu, app_nil_r. now rewrite <- !app_assoc.
Qed.

Lemma profilePromptTemplate_renders
  (env : Env) (scope : GitHubProfile.State) (data : GitHubProfile.FormData) :
  map env profilePromptArguments = GitHubProfile.fieldsOf data ->
  render env profilePromptTemplate = GitHubProfile.generatePrompt scope data.
Proof.
  intros H. unfold profilePromptArguments, GitHubProfile.fieldsOf in H.
  cbn [map] in H.
  injection H as H1 H2 H3 H4 H5 H6 H7 H8 H9 H10 H11.
  unfold profilePromptTemplate, GitHubProfile.generatePrompt.
  cbn [ofLines app render joinWith].
  rewrite H1, H2, H3, H4, H5, H6, H7, H8, H9, H10, H11, !app_nil_r.
  cbn [app]. rewrite <- !app_assoc. reflexivity.
Qed.

End Templates.

(** C6: the prompt builders are pure.  Each returns one template
    literal that reads its arguments and nothing else in scope: the
    topic literal reads [topic] and [context.unitTitle], the profile
    literal the eleven fields of [data].  So two invocations in
    environments that agree on these, and differ in any way on the
    state cells, the API key or anything else in scope, return equal
    strings; and the text of each literal is the builder applied to
    the values of its arguments. *)
Theorem prompt_builders_are_pure (env1 env2 : Template.Env) :
  map env1 Template.topicPromptArguments
  = map env2 Template.topicPromptArguments ->
  map env1 Template.profilePromptArguments
  = map env2 Template.profilePromptArguments ->
  Template.render env1 Template.topicPromptTemplate
  = Template.render env2 Template.topicPromptTemplate
  /\ Template.render env1 Template.profilePromptTemplate
     = Template.render env2 Template.profilePromptTemplate
  /\ (forall (scope : NotesWriter.Scope) (topic : jsstring)
             (context : NotesWriter.TopicContext),
         map env1 Template.topicPromptArguments
         = [topic; NotesWriter.context_unitTitle context] ->
         Template.render env1 Template.topicPromptTemplate
         = NotesWriter.generateTopicPrompt scope topic context)
  /\ (forall (scope : GitHubProfile.State) (data : GitHubProfile.FormData),
         map env1 Template.profilePromptArguments
         = GitHubProfile.fieldsOf data ->
         Template.render env1 Template.profilePromptTemplate
         = GitHubProfile.generatePrompt scope data).
Proof.
  intros Htopic Hprofile. split; [| split; [| split]].
  - apply render_agree. intros e He. now apply (map_agree _ _ _ Htopic).
  - apply render_agree. intros e He.
    apply (map_agree _ _ _ Hprofile).
    revert He. vm_compute. tauto.
  - intros scope topic context. apply topicPromptTemplate_renders.
  - intros scope data. apply profilePromptTemplate_renders.
Qed.

Lemma prompt_builders_are_pure_witness :
  Template.envOf Template.sampleArguments (js "one") ["formData"; "topics"]
  <> Template.envOf Template.sampleArguments (js "two") ["formData"; "topics"]
  /\ Template.render (Template.envOf Template.sampleArguments (js "one"))
       Template.topicPromptTemplate
     = Template.render (Template.envOf Template.sampleArguments (js "two"))
         Template.topicPromptTemplate
  /\ Template.render (Template.envOf Template.sampleArguments (js "one"))
       Template.profilePromptTemplate
     = Template.render (Template.envOf Template.sampleArguments (js "two"))
         Template.profilePromptTemplate.
Proof.
  split; [vm_compute; discriminate |].
  pose proof (prompt_builders_are_pure
                (Template.envOf Template.sampleArguments (js "one"))
                (Template.envOf Template.sampleArguments (js "two"))
                eq_refl eq_refl) as (H1 & H2 & _).
  split; [exact H1 | exact H2].
Defined.

(** ** Reading back what [JSON.stringify] writes *)

Section StringLiteral.

Local Open Scope N_scope.

Lemma hexValue_hexDigit d : d < 16 -> hexValue (hexDigit d) = Some d.
Proof.
  intros H. destruct d as [| p]; [reflexivity |].
  do 4 (destruct p as [p | p |]; try reflexivity; try lia).
Qed.

Lemma hex4_digits c :
  c < 65536 ->
  hex4 (hexDigit (c / 4096 mod 16)) (hexDigit (c / 256 mod 16))
       (hexDigit (c / 16 mod 16)) (hexDigit (c mod 16)) = Some c.
Proof.
  intros H. unfold hex4.
  rewrite !hexValue_hexDigit by (apply N.mod_lt; discriminate).
  f_equal.
  zify. Z.to_euclidean_division_equations. lia.
Qed.

Lemma readStringBody_unicodeEscape c text :
  c < 65536 ->
  readStringBody (unicodeEscape c ++ text) = consTo c (readStringBody text).
Proof.
  intros H. unfold unicodeEscape.
  change (readStringBody
            ([BACKSLASH; 117; hexDigit (c / 4096 mod 16);
              hexDigit (c / 256 mod 16); hexDigit (c / 16 mod 16);
              hexDigit (c mod 16)] ++ text))
    with (match hex4 (hexDigit (c / 4096 mod 16)) (hexDigit (c / 256 mod 16))
                     (hexDigit (c / 16 mod 16)) (hexDigit (c mod 16)) with
          | Some u => consTo u (readStringBody text)
          | None => None
          end).
  now rewrite hex4_digits.
Qed.

(** A code unit that stands for itself inside a literal. *)
Lemma readStringBody_plain c text :
  c <> DQUOTE -> c <> BACKSLASH -> c <> 10 -> c <> 13 ->
  readStringBody (c :: text) = consTo c (readStringBody text).
Proof.
  intros Hq Hb Hn Hr. cbn [readStringBody].
  apply N.eqb_neq in Hq, Hb, Hn, Hr. now rewrite Hq, Hb, Hn, Hr.
Qed.

Lemma readStringBody_quoteCodeUnit c text :
  c < 65536 ->
  readStringBody (quoteCodeUnit c ++ text) = consTo c (readStringBody text).
Proof.
  intros H. unfold quoteCodeUnit.
  repeat match goal with
         | |- context [if ?k =? ?v then _ else _] =>
             destruct (N.eqb_spec k v) as [-> | ?]; [reflexivity |]
         end.
  destruct (N.ltb_spec c 32).
  - now apply readStringBody_unicodeEscape.
  - apply readStringBody_plain; assumption.
Qed.

Lemma surrogate_plain c :
  isLeadingSurrogate c || isTrailingSurrogate c = true ->
  c <> DQUOTE /\ c <> BACKSLASH /\ c <> 10 /\ c <> 13.
Proof.
  unfold isLeadingSurrogate, isTrailingSurrogate, DQUOTE, BACKSLASH.
  intros H. apply orb_prop in H as [H | H];
    apply andb_prop in H as [H _]; apply N.leb_le in H; lia.
Qed.

(** The literal written by [JSON.stringify] reads back as the string. *)
Lemma readStringBody_quoteJSONBody s :
  forall text,
    Forall (fun c => c < 65536) s ->
    readStringBody (quoteJSONBody s ++ [DQUOTE] ++ text) = Some (s, text).
Proof.
  remember (length s) as n eqn:Hn. revert s Hn.
  induction n as [n IH] using lt_wf_ind. intros s Hn text Hs.
  destruct s as [| c rest]; [reflexivity |].
  apply Forall_cons in Hs as [Hc Hrest].
  cbn [quoteJSONBody].
  destruct (isLeadingSurrogate c) eqn:Hlead.
  - destruct rest as [| d rest'].
    + rewrite readStringBody_unicodeEscape by assumption. reflexivity.
    + destruct (isTrailingSurrogate d) eqn:Htrail.
      * apply Forall_cons in Hrest as [Hd Hrest'].
        destruct (surrogate_plain c) as (? & ? & ? & ?);
          [now rewrite Hlead |].
        destruct (surrogate_plain d) as (? & ? & ? & ?);
          [now rewrite Htrail, orb_true_r |].
        change ((c :: d :: quoteJSONBody rest') ++ [DQUOTE] ++ text)
          with (c :: d :: (quoteJSONBody rest' ++ [DQUOTE] ++ text)).
        rewrite !readStringBody_plain by assumption.
        rewrite (IH (length rest')) by (subst n; simpl; auto; lia).
        reflexivity.
      * rewrite <- app_assoc, readStringBody_unicodeEscape by assumption.
        rewrite (IH (length (d :: rest'))) by (subst n; simpl; auto; lia).
        reflexivity.
  - destruct (isTrailingSurrogate c) eqn:Htrail.
    + rewrite <- app_assoc, readStringBody_unicodeEscape by assumption.
      rewrite (IH (length rest)) by (subst n; simpl; auto; lia).
      reflexivity.
    + rewrite <- app_assoc, readStringBody_quoteCodeUnit by assumption.
      rewrite (IH (length rest)) by (subst n; simpl; auto; lia).
      reflexivity.
Qed.

Lemma readStringLiteral_JSON_stringify s text :
  Forall (fun c => c < 65536) s ->
  readStringLiteral (JSON_stringify s ++ text) = Some (s, text).
Proof.
  intros Hs. unfold JSON_stringify, readStringLiteral.
  cbn [app]. rewrite N.eqb_refl. rewrite <- app_assoc.
  now apply readStringBody_quoteJSONBody.
Qed.

End StringLiteral.

(** ** Searching in documents *)

Section Search.

Local Open Scope N_scope.

Lemma startsWith_app needle s text :
  startsWith needle s = true -> startsWith needle (s ++ text) = true.
Proof.
  revert s. induction needle as [| p needle IH]; intros [| c s] H;
    simpl in *; try reflexivity; try discriminate.
  apply andb_prop in H as [-> H]. simpl. now apply IH.
Qed.

Lemma startsWith_length needle s :
  startsWith needle s = true -> (length needle <= length s)%nat.
Proof.
  revert s. induction needle as [| p needle IH]; intros [| c s] H;
    simpl in *; try lia; try discriminate.
  apply andb_prop in H as [_ H]. apply IH in H. lia.
Qed.

Lemma overlaps_startsWith needle s text :
  overlaps needle s = false -> startsWith needle (s ++ text) = false.
Proof.
  revert s. induction needle as [| p needle IH]; intros [| c s] H;
    simpl in *; try discriminate.
  destruct (p =? c); simpl in *; [now apply IH | reflexivity].
Qed.

(** A beginning in which the needle cannot start is skipped. *)
Lemma after_skip needle s text :
  mayStartIn needle s = false ->
  after needle (s ++ text) = after needle text.
Proof.
  induction s as [| c s IH]; intros H; [reflexivity |].
  cbn [mayStartIn] in H. apply orb_false_elim in H as [Ho Hm].
  change ((c :: s) ++ text) with (c :: (s ++ text)).
  cbn [after].
  change (c :: (s ++ text)) with ((c :: s) ++ text).
  rewrite (overlaps_startsWith _ _ text Ho). now apply IH.
Qed.

(** An occurrence found within the known beginning is the first one
    of the whole text. *)
Lemma after_found needle s found text :
  afterWithin needle s = Some found ->
  after needle (s ++ text) = Some (found ++ text).
Proof.
  induction s as [| c s IH]; intros H.
  - destruct needle; [| discriminate]. simpl in *. injection H as <-.
    now destruct text.
  - cbn [afterWithin] in H.
    change ((c :: s) ++ text) with (c :: (s ++ text)). cbn [after].
    change (c :: (s ++ text)) with ((c :: s) ++ text).
    destruct (startsWith needle (c :: s)) eqn:Hs.
    + rewrite (startsWith_app _ _ text Hs). injection H as <-.
      f_equal. apply drop_app_le. now apply startsWith_length.
    + destruct (overlaps needle (c :: s)) eqn:Ho; [discriminate |].
      rewrite (overlaps_startsWith _ _ text Ho). now apply IH.
Qed.

Lemma mayStartIn_absent c needle s :
  Forall (fun x => x <> c) s -> mayStartIn (c :: needle) s = false.
Proof.
  induction 1 as [| x s Hx _ IH]; [reflexivity |].
  cbn [mayStartIn overlaps]. apply N.eqb_neq in Hx.
  rewrite N.eqb_sym, Hx. exact IH.
Qed.

Lemma includes_app_r needle pre s :
  includes needle s = true -> includes needle (pre ++ s) = true.
Proof.
  intros H. induction pre as [| c pre IH]; [exact H |].
  change ((c :: pre) ++ s) with (c :: (pre ++ s)). cbn [includes].
  rewrite IH. apply orb_true_r.
Qed.

Lemma includes_app_l needle s post :
  includes needle s = true -> includes needle (s ++ post) = true.
Proof.
  induction s as [| c s IH]; intros H.
  - destruct needle; [| discriminate]. now destruct post.
  - cbn [includes] in H.
    change ((c :: s) ++ post) with (c :: (s ++ post)). cbn [includes].
    change (c :: (s ++ post)) with ((c :: s) ++ post).
    apply orb_prop in H as [H | H].
    + now rewrite (startsWith_app _ _ post H).
    + rewrite IH by assumption. apply orb_true_r.
Qed.

(** Text without the character [<] is script data as it stands. *)
Lemma scriptData_plain s text :
  Forall (fun c => c <> 60) s ->
  scriptData (s ++ text) = s ++ scriptData text.
Proof.
  induction 1 as [| c s Hc _ IH]; [reflexivity |].
  change ((c :: s) ++ text) with (c :: (s ++ text)). cbn [scriptData].
  replace (atScriptEndTag (c :: s ++ text)) with false.
  - now rewrite IH.
  - unfold atScriptEndTag.
    change (js "</script") with (60 :: js "/script").
    change (firstn 8 (c :: s ++ text)) with (c :: firstn 7 (s ++ text)).
    cbn [map startsWith].
    replace (60 =? toLowerASCII c) with false; [reflexivity |].
    symmetry. apply N.eqb_neq. unfold toLowerASCII.
    destruct ((65 <=? c) && (c <=? 90)) eqn:E; [| now auto].
    apply andb_prop in E as [E _]. apply N.leb_le in E. lia.
Qed.

Lemma quoteJSONBody_no_lt s :
  Forall (fun c => c <> 60) s -> Forall (fun c => c <> 60) (quoteJSONBody s).
Proof.
  assert (Hesc : forall c, Forall (fun x => x <> 60) (unicodeEscape c)).
  { intros c. unfold unicodeEscape.
    assert (Hd : forall d, hexDigit (d mod 16) <> 60).
    { intros d. pose proof (N.mod_lt d 16 ltac:(discriminate)).
      unfold hexDigit. destruct (N.ltb_spec (d mod 16) 10); lia. }
    repeat constructor; try discriminate; apply Hd. }
  assert (Hq : forall c, c <> 60 -> Forall (fun x => x <> 60) (quoteCodeUnit c)).
  { intros c Hc. unfold quoteCodeUnit.
    repeat match goal with
           | |- context [if ?k =? ?v then _ else _] =>
               destruct (k =? v); [repeat constructor; discriminate |]
           end.
    destruct (c <? 32); [apply Hesc | now repeat constructor]. }
  remember (length s) as n eqn:Hn. revert s Hn.
  induction n as [n IH] using lt_wf_ind. intros s Hn Hs.
  destruct s as [| c rest]; [constructor |].
  apply Forall_cons in Hs as [Hc Hrest]. cbn [quoteJSONBody].
  destruct (isLeadingSurrogate c).
  - destruct rest as [| d rest']; [apply Hesc |].
    destruct (isTrailingSurrogate d).
    + apply Forall_cons in Hrest as [Hd Hrest'].
      repeat (apply Forall_cons; split; [assumption |]).
      apply (IH (length rest')); [subst n; simpl; lia | reflexivity | assumption].
    + apply Forall_app; split; [apply Hesc |].
      apply (IH (length (d :: rest'))); [subst n; simpl; lia | reflexivity | assumption].
  - destruct (isTrailingSurrogate c).
    + apply Forall_app; split; [apply Hesc |].
      apply (IH (length rest)); [subst n; simpl; lia | reflexivity | assumption].
    + apply Forall_app; split; [now apply Hq |].
      apply (IH (length rest)); [subst n; simpl; lia | reflexivity | assumption].
Qed.

End Search.

(** ** What the preview document contains *)

Section PreviewFacts.

Local Open Scope N_scope.

(** X14: whatever the title and the notes, the document has the copy
    control and the print control of the control bar. *)
Lemma preview_has_controls (st : NotesWriter.State) :
  includes Preview.copyControl (Preview.previewDocument st) = true
  /\ includes Preview.printControl (Preview.previewDocument st) = true.
Proof.
  unfold Preview.previewDocument.
  split; apply includes_app_r, includes_app_r, includes_app_l;
    vm_compute; reflexivity.
Qed.

Lemma previewTitle_plain (form : NotesWriter.FormData) :
  Forall (fun c => c <> 60) (NotesWriter.unitTitle form) ->
  Forall (fun c => c <> 60) (Preview.previewTitle form).
Proof.
  intros H. unfold Preview.previewTitle.
  destruct (truthy _); [exact H |].
  apply Forall_forall. intros c Hc. apply list_elem_of_In in Hc.
  vm_compute in Hc. intros ->.
  repeat (destruct Hc as [Hc | Hc]; [discriminate |]). exact Hc.
Qed.

(** X13: notes and a title without the character [<] are recovered
    exactly: the defect of the preview is confined to markup in the
    embedded text. *)
Theorem preview_recovers_notes_without_markup (st : NotesWriter.State) :
  Forall (fun c => c <> 60) (NotesWriter.unitTitle (NotesWriter.formData st)) ->
  Forall (fun c => c <> 60) (NotesWriter.generatedNotes st) ->
  Forall (fun c => c < 65536) (NotesWriter.generatedNotes st) ->
  Preview.recoveredMarkdown (Preview.previewDocument st)
  = Some (NotesWriter.generatedNotes st).
Proof.
  intros Htitle Hplain Hunits.
  unfold Preview.recoveredMarkdown, Preview.inlineScript,
    Preview.previewDocument.
  rewrite after_skip by (vm_compute; reflexivity).
  rewrite after_skip
    by (apply (mayStartIn_absent 60 (js "script>")), previewTitle_plain,
        Htitle).
  rewrite (after_found _ _ Preview.scriptPrologue)
    by (vm_compute; reflexivity).
  cbn [fmap option_fmap option_map mbind option_bind].
  rewrite app_assoc, scriptData_plain.
  - rewrite <- app_assoc.
    rewrite (after_found _ _ []) by (vm_compute; reflexivity).
    cbn [app mbind option_bind].
    rewrite readStringLiteral_JSON_stringify by assumption. reflexivity.
  - apply Forall_app. split.
    + apply Forall_forall. intros c Hc. apply list_elem_of_In in Hc.
      intros ->. vm_compute in Hc.
      repeat (destruct Hc as [Hc | Hc]; [discriminate |]). exact Hc.
    + unfold JSON_stringify. apply Forall_app. split; [repeat constructor; discriminate |].
      apply Forall_app. split; [now apply quoteJSONBody_no_lt |].
      repeat constructor; discriminate.
Qed.

End PreviewFacts.

(** ** The preview document and the notes it embeds *)

(** C7 fails on the code: notes that contain the end tag of a script
    element are not recovered by the preview.  [JSON.stringify] leaves
    the characters of the end tag as they are, so the HTML tokenizer
    ends the inline script at them, inside the string literal: what is
    left of the script after the declaration is the opening quote and
    the escaped text of the notes up to the end tag (line feeds are
    still written as a backslash and the letter n there), the literal
    is never closed, and no markdown is recovered.  The two controls
    are in the document all the same. *)
Theorem preview_loses_notes_with_script_end_tag :
  NotesWriter.generatedNotes Preview.notesOnHtml
  = js "# Web" ++ [LF; LF; LF] ++ js "## HTML" ++ [LF; LF]
    ++ js "Scripts go in <script></script> elements."
  /\ Preview.handlePreviewInNewTab Preview.notesOnHtml true
     = Some (Preview.previewDocument Preview.notesOnHtml)
  /\ (after (js "const markdownContent = ")
        <$> Preview.inlineScript (Preview.previewDocument Preview.notesOnHtml))
     = Some (Some ([DQUOTE]
                   ++ js "# Web\n\n\n## HTML\n\nScripts go in <script>"))
  /\ Preview.recoveredMarkdown (Preview.previewDocument Preview.notesOnHtml)
     = None
  /\ Preview.recoveredMarkdown (Preview.previewDocument Preview.notesOnHtml)
     <> Some (NotesWriter.generatedNotes Preview.notesOnHtml)
  /\ includes Preview.copyControl
       (Preview.previewDocument Preview.notesOnHtml) = true
  /\ includes Preview.printControl
       (Preview.previewDocument Preview.notesOnHtml) = true.
Proof.
  repeat split; try (vm_compute; reflexivity).
  vm_compute. discriminate.
Qed.

(** * Further properties of the pages *)

(** ** The submit handler of the notes writer *)

Section LoopCells.

Lemma afterTopics_console os :
  forall vars st,
    console (snd (fold_left afterTopic os (vars, st)))
    = console st ++ map (fun f => loggedFailure (snd f)) (failures os).
Proof.
  induction os as [| [t [c | e]] os IH]; intros vars st; simpl.
  - now rewrite app_nil_r.
  - rewrite IH. reflexivity.
  - destruct (includes _ (errorMessageOf e)); rewrite IH; simpl;
      now rewrite <- app_assoc.
Qed.

Lemma afterTopics_apiKeyModal os :
  forall vars st,
    showApiKeyModal (snd (fold_left afterTopic os (vars, st)))
    = showApiKeyModal st
      || existsb (fun f => mentionsApiKey (snd f)) (failures os).
Proof.
  induction os as [| [t [c | e]] os IH]; intros vars st; simpl.
  - now rewrite orb_false_r.
  - rewrite IH. reflexivity.
  - unfold mentionsApiKey at 1.
    destruct (includes _ (errorMessageOf e)); rewrite IH; simpl.
    + now destruct (showApiKeyModal st).
    + reflexivity.
Qed.

Lemma successes_failures_length os :
  (length (successes os) + length (failures os))%nat = length os.
Proof.
  induction os as [| [t [c | e]] os IH]; simpl; lia.
Qed.

Lemma outcomes_length service scope topicList :
  forall n, length (outcomes service scope n topicList) = length topicList.
Proof.
  induction topicList as [| t rest IH]; intros n; simpl;
    [reflexivity | now rewrite IH].
Qed.

Lemma successes_topics_In os t :
  In t (map topic (successes os)) -> In t (map fst os).
Proof.
  induction os as [| [t0 [c | e]] os IH]; simpl; intros H.
  - contradiction.
  - destruct H as [H | H]; [now left | right; auto].
  - right; auto.
Qed.

Lemma successes_all os :
  (forall o, In o os -> exists c, snd o = Generated c) ->
  map topic (successes os) = map fst os.
Proof.
  induction os as [| [t r] os IH]; simpl; intros H; [reflexivity |].
  destruct (H (t, r) (or_introl eq_refl)) as [c Hc]. simpl in Hc. subst r.
  simpl. f_equal. apply IH. intros o Ho. apply H. now right.
Qed.

End LoopCells.

Lemma submit_formData (service : Service) (key : option jsstring) (st : State) :
  formData (fst (submit service key st)) = formData st.
Proof.
  destruct (accepted key st) eqn:Ha.
  - rewrite submit_accepted by assumption. cbn [fst]. unfold finished.
    cbn [formData setCurrentSection setShowLoadingModal setIsLoading
      setShowSuccessModal setTopicContents setGeneratedNotes].
    match goal with |- context [fold_left afterTopic ?o (?v, ?s)] =>
      destruct (afterTopics_untouched o v s) as [H _] end.
    now rewrite H.
  - revert Ha. unfold accepted, submit, handleSubmit.
    change (geminiKey (scopeOf key st)) with key.
    change (rendered (scopeOf key st)) with st.
    destruct (keyPresent key); cbn [andb negb]; [| reflexivity].
    destruct (truthy (unitTitle (formData st))); cbn [andb negb orb];
      [| reflexivity].
    now intros ->.
Qed.

(** X1: no submission changes the form.  A submission that passes the
    guards ends with the loading flag and the loading modal off, no
    current section, and the success modal open, whatever the calls
    returned. *)
Theorem submit_keeps_form_and_ends_loading
  (service : Service) (key : option jsstring) (st : State) :
  let st' := fst (submit service key st) in
  formData st' = formData st
  /\ (accepted key st = true ->
      isLoading st' = false /\ showLoadingModal st' = false
      /\ currentSection st' = None /\ showSuccessModal st' = true).
Proof.
  intros st'. split; [apply submit_formData |].
  intros Ha. subst st'. rewrite submit_accepted by assumption.
  repeat split.
Qed.

(** X2: after a submission that passes the guards the API key modal
    is open exactly when it was open before or the message of some
    failed call contains [API key]. *)
Theorem submit_opens_key_modal_on_key_errors
  (service : Service) (key : option jsstring) (st : State) :
  accepted key st = true ->
  showApiKeyModal (fst (submit service key st))
  = showApiKeyModal st
    || existsb (fun f => mentionsApiKey (snd f))
         (failures (outcomesOf service key st)).
Proof.
  intros Ha. rewrite submit_accepted by assumption. cbn [fst].
  unfold finished. cbn [showApiKeyModal setCurrentSection
    setShowLoadingModal setIsLoading setShowSuccessModal setTopicContents
    setGeneratedNotes].
  now rewrite afterTopics_apiKeyModal.
Qed.

Lemma submit_opens_key_modal_on_key_errors_witness :
  showApiKeyModal (fst (submit failsSecondCall (Some (js "k"))
                          (formWith "u" "a, b")))
  = showApiKeyModal (formWith "u" "a, b")
    || existsb (fun f => mentionsApiKey (snd f))
         (failures (outcomesOf failsSecondCall (Some (js "k"))
                      (formWith "u" "a, b"))).
Proof.
  apply (submit_opens_key_modal_on_key_errors failsSecondCall (Some (js "k"))
           (formWith "u" "a, b")).
  reflexivity.
Defined.

(** X3: a submission that passes the guards writes one console
    message per failed call, in input order, with the value thrown,
    and nothing else. *)
Theorem submit_logs_each_failure
  (service : Service) (key : option jsstring) (st : State) :
  accepted key st = true ->
  console (fst (submit service key st))
  = console st
    ++ map (fun f => loggedFailure (snd f))
         (failures (outcomesOf service key st)).
Proof.
  intros Ha. rewrite submit_accepted by assumption. cbn [fst].
  unfold finished. cbn [console setCurrentSection
    setShowLoadingModal setIsLoading setShowSuccessModal setTopicContents
    setGeneratedNotes].
  now rewrite afterTopics_console.
Qed.

Lemma submit_logs_each_failure_witness :
  console (fst (submit failsSecondCall (Some (js "k")) (formWith "u" "a, b")))
  = console (formWith "u" "a, b")
    ++ map (fun f => loggedFailure (snd f))
         (failures (outcomesOf failsSecondCall (Some (js "k"))
                      (formWith "u" "a, b"))).
Proof.
  apply (submit_logs_each_failure failsSecondCall (Some (js "k"))
           (formWith "u" "a, b")).
  reflexivity.
Defined.

(** X4: after a submission that passes the guards the success modal
    reports the number of topics whose call succeeded; together with
    the failed ones they are all the topics of the list. *)
Theorem success_modal_counts_generated_topics
  (service : Service) (key : option jsstring) (st : State) :
  accepted key st = true ->
  let os := outcomesOf service key st in
  let st' := fst (submit service key st) in
  renderedSuccessModal st'
  = Some ("Notes Generated!",
          [ Text "Your study notes have been successfully generated with ";
            Number (length (successes os));
            Text " topics." ])
  /\ (length (successes os) + length (failures os))%nat
     = length (splitTopics (topics (formData st))).
Proof.
  intros Ha os st'. split.
  - unfold renderedSuccessModal, SuccessModal. subst st'.
    rewrite submit_showSuccessModal, submit_topicContents by assumption.
    reflexivity.
  - rewrite successes_failures_length. apply outcomes_length.
Qed.

Lemma success_modal_counts_generated_topics_witness :
  renderedSuccessModal
    (fst (submit failsSecondCall (Some (js "k")) (formWith "u" "a, b, c")))
  = Some ("Notes Generated!",
          [ Text "Your study notes have been successfully generated with ";
            Number (length (successes (outcomesOf failsSecondCall
                                         (Some (js "k"))
                                         (formWith "u" "a, b, c"))));
            Text " topics." ])
  /\ (length (successes (outcomesOf failsSecondCall (Some (js "k"))
                           (formWith "u" "a, b, c")))
      + length (failures (outcomesOf failsSecondCall (Some (js "k"))
                            (formWith "u" "a, b, c"))))%nat
     = length (splitTopics (topics (formData (formWith "u" "a, b, c")))).
Proof.
  apply (success_modal_counts_generated_topics failsSecondCall
           (Some (js "k")) (formWith "u" "a, b, c")).
  reflexivity.
Defined.

(** X5: what the guards do.  Without an API key the handler only opens
    the API key modal, also when the form is incomplete; with a key
    and an empty unit title or topics field it only shows the missing
    information toast. *)
Theorem rejected_submission
  (service : Service) (key : option jsstring) (st : State) :
  (keyPresent key = false ->
   submit service key st = (setShowApiKeyModal true st, []))
  /\ (keyPresent key = true ->
      unitTitle (formData st) = [] \/ topics (formData st) = [] ->
      submit service key st = (toast missingInformationToast st, [])).
Proof.
  unfold submit, handleSubmit.
  change (geminiKey (scopeOf key st)) with key.
  change (rendered (scopeOf key st)) with st.
  split.
  - intros ->. reflexivity.
  - intros -> [-> | ->]; cbn [negb truthy orb]; [reflexivity |].
    rewrite orb_true_r. reflexivity.
Qed.

(** ** The topics field and the loading modal *)


Section TopicLists.

Local Open Scope N_scope.

Lemma filter_none {A : Type} (p : A -> bool) (l : list A) :
  (forall x, In x l -> p x = false) -> List.filter p l = [].
Proof.
  induction l as [| x l IH]; intros H; [reflexivity |].
  simpl. rewrite (H x (or_introl eq_refl)). apply IH.
  intros y Hy. apply H. now right.
Qed.

Lemma filter_all {A : Type} (p : A -> bool) (l : list A) :
  (forall x, In x l -> p x = true) -> List.filter p l = l.
Proof.
  induction l as [| x l IH]; intros H; [reflexivity |].
  simpl. rewrite (H x (or_introl eq_refl)). f_equal. apply IH.
  intros y Hy. apply H. now right.
Qed.

Lemma splitTopics_units field t c :
  In t (splitTopics field) -> In c t -> In c field /\ c <> COMMA.
Proof.
  unfold splitTopics. intros Ht Hc.
  apply filter_In in Ht as [Ht _]. apply in_map_iff in Ht as (f & <- & Hf).
  apply (split_fragment_units COMMA field f c Hf). now apply trim_units.
Qed.

Lemma splitTopics_trimmed field t : In t (splitTopics field) -> trim t = t.
Proof.
  unfold splitTopics. intros Ht.
  apply filter_In in Ht as [Ht _]. apply in_map_iff in Ht as (f & <- & _).
  apply trim_idempotent.
Qed.

(** A field made of commas and white space only holds no topic. *)
Lemma splitTopics_separators_only field :
  forallb (fun c => isWhiteSpace c || (c =? COMMA)) field = true ->
  splitTopics field = [].
Proof.
  intros H. unfold splitTopics. apply filter_none.
  intros t Ht. apply in_map_iff in Ht as (f & <- & Hf).
  rewrite trim_truthy. apply negb_false_iff.
  apply forallb_forall. intros c Hc.
  destruct (split_fragment_units COMMA field f c Hf Hc) as [Hin Hne].
  rewrite forallb_forall in H. specialize (H c Hin).
  apply N.eqb_neq in Hne. rewrite Hne, orb_false_r in H. exact H.
Qed.

End TopicLists.

(** X6: a topics field that is not empty but holds only commas and
    white space passes the guard on the field and yields no topic: the
    run issues no call and still ends as a success, with the title
    heading as the only content and a success modal reporting 0
    topics. *)
Theorem separators_only_field_generates_nothing
  (service : Service) (key : option jsstring) (st : State) :
  accepted key st = true ->
  forallb (fun c => isWhiteSpace c || N.eqb c COMMA) (topics (formData st))
  = true ->
  let st' := fst (submit service key st) in
  snd (submit service key st) = []
  /\ generatedNotes st' = js "# " ++ unitTitle (formData st) ++ [LF]
  /\ topicContents st' = []
  /\ renderedSuccessModal st'
     = Some ("Notes Generated!",
             [ Text "Your study notes have been successfully generated with ";
               Number 0;
               Text " topics." ]).
Proof.
  intros Ha Hsep st'.
  assert (Hos : outcomesOf service key st = []).
  { unfold outcomesOf. now rewrite splitTopics_separators_only. }
  assert (Ht : topicContents st' = []).
  { subst st'. rewrite submit_topicContents by assumption. now rewrite Hos. }
  repeat split.
  - rewrite submit_events by assumption. now rewrite Hos.
  - subst st'. rewrite submit_notes by assumption. rewrite Hos.
    unfold specNotes. cbn [successes map concat]. now rewrite app_nil_r.
  - exact Ht.
  - unfold renderedSuccessModal, SuccessModal. rewrite Ht.
    subst st'. now rewrite submit_showSuccessModal.
Qed.

Lemma separators_only_field_generates_nothing_witness :
  snd (submit alwaysGenerates (Some (js "k")) (formWith "u" " , ,")) = []
  /\ generatedNotes (fst (submit alwaysGenerates (Some (js "k"))
                            (formWith "u" " , ,")))
     = js "# " ++ unitTitle (formData (formWith "u" " , ,")) ++ [LF]
  /\ topicContents (fst (submit alwaysGenerates (Some (js "k"))
                           (formWith "u" " , ,"))) = []
  /\ renderedSuccessModal (fst (submit alwaysGenerates (Some (js "k"))
                                  (formWith "u" " , ,")))
     = Some ("Notes Generated!",
             [ Text "Your study notes have been successfully generated with ";
               Number 0;
               Text " topics." ]).
Proof.
  apply (separators_only_field_generates_nothing alwaysGenerates
           (Some (js "k")) (formWith "u" " , ,")).
  - reflexivity.
  - reflexivity.
Defined.

(** X7: the loading modal lists one section per fragment of the topics
    field, one more than the field has commas, empty fragments
    included.  Only non-empty sections are ever completed, and when
    every call succeeds the completed sections are exactly the
    non-empty sections, in order: a section for an empty fragment
    stays uncompleted to the end of the run. *)
Theorem loading_modal_sections
  (service : Service) (key : option jsstring) (st : State) :
  accepted key st = true ->
  let st' := fst (submit service key st) in
  length (loadingSections st)
  = S (length (List.filter (fun c => N.eqb c COMMA) (topics (formData st))))
  /\ (forall t, In t (completedSections st') ->
                t <> [] /\ In t (loadingSections st))
  /\ ((forall o, In o (outcomesOf service key st) ->
                 exists c, snd o = Generated c) ->
      completedSections st' = List.filter truthy (loadingSections st)).
Proof.
  intros Ha st'. subst st'. rewrite submit_completedSections by assumption.
  repeat split.
  - unfold loadingSections. rewrite length_map. apply count_split.
  - apply successes_topics_In in H. unfold outcomesOf in H.
    rewrite outcomes_topics in H.
    pose proof (splitTopics_truthy (topics (formData st))) as Hall.
    rewrite List.Forall_forall in Hall. now apply Hall.
  - apply successes_topics_In in H. unfold outcomesOf in H.
    rewrite outcomes_topics in H. unfold splitTopics in H.
    now apply filter_In in H as [H _].
  - intros Hall. rewrite successes_all by assumption.
    unfold outcomesOf. now rewrite outcomes_topics.
Qed.

Lemma loading_modal_sections_witness :
  length (loadingSections (formWith "u" "a,,b,"))
  = S (length (List.filter (fun c => N.eqb c COMMA)
                 (topics (formData (formWith "u" "a,,b,")))))
  /\ (forall t,
        In t (completedSections
                (fst (submit alwaysGenerates (Some (js "k"))
                        (formWith "u" "a,,b,")))) ->
        t <> [] /\ In t (loadingSections (formWith "u" "a,,b,")))
  /\ ((forall o,
         In o (outcomesOf alwaysGenerates (Some (js "k"))
                 (formWith "u" "a,,b,")) ->
         exists c, snd o = Generated c) ->
      completedSections (fst (submit alwaysGenerates (Some (js "k"))
                                (formWith "u" "a,,b,")))
      = List.filter truthy (loadingSections (formWith "u" "a,,b,"))).
Proof.
  apply (loading_modal_sections alwaysGenerates (Some (js "k"))
           (formWith "u" "a,,b,")).
  reflexivity.
Defined.

(** X8: the topic list is in normal form.  Every topic is non-empty,
    neither its first nor its last code unit is white space, and it
    contains no comma; trimming a topic again changes nothing, and
    joining the topics with commas and splitting the result again
    gives the same topics. *)
Theorem splitTopics_normal_form (field : jsstring) :
  Forall (fun t => t <> [] /\ cleanEnds t = true /\ trim t = t
                   /\ ~ In COMMA t)
    (splitTopics field)
  /\ splitTopics (joinWith [COMMA] (splitTopics field)) = splitTopics field.
Proof.
  assert (Hnf : Forall (fun t => t <> [] /\ cleanEnds t = true /\ trim t = t
                                 /\ ~ In COMMA t)
                  (splitTopics field)).
  { apply List.Forall_forall. intros t Ht. repeat split.
    - pose proof (splitTopics_truthy field) as Hall.
      rewrite List.Forall_forall in Hall. now apply Hall.
    - pose proof (splitTopics_cleanEnds field) as Hall.
      rewrite List.Forall_forall in Hall. now apply Hall.
    - now apply (splitTopics_trimmed field).
    - intros Hc. now destruct (splitTopics_units field t COMMA Ht Hc). }
  split; [exact Hnf |].
  destruct (splitTopics field) as [| t ts] eqn:E; [reflexivity |].
  unfold splitTopics at 1. rewrite split_joinWith.
  - rewrite List.Forall_forall in Hnf.
    assert (Hmap : map trim (t :: ts) = t :: ts).
    { rewrite <- (map_id (t :: ts)) at 2. apply map_ext_in.
      intros x Hx. now apply Hnf. }
    rewrite Hmap. apply filter_all. intros x Hx.
    destruct (Hnf x Hx) as (Hne & _). now destruct x.
  - discriminate.
  - eapply Forall_impl; [exact Hnf |]. intros x (_ & _ & _ & Hx). exact Hx.
Qed.

(** ** Substrings, error messages and prompts *)

Section Substrings.

Local Open Scope N_scope.

Lemma startsWith_prefix needle post : startsWith needle (needle ++ post) = true.
Proof.
  induction needle as [| c needle IH]; [reflexivity |].
  simpl. now rewrite N.eqb_refl.
Qed.

Lemma startsWith_inv needle s :
  startsWith needle s = true -> exists post, s = needle ++ post.
Proof.
  revert s. induction needle as [| p needle IH]; intros s H.
  - now exists s.
  - destruct s as [| c s]; [discriminate |]. simpl in H.
    apply andb_prop in H as [Hc H]. apply N.eqb_eq in Hc as ->.
    destruct (IH s H) as [post ->]. now exists post.
Qed.

(** [includes] finds exactly the contiguous occurrences. *)
Lemma includes_spec needle s :
  includes needle s = true <-> exists pre post, s = pre ++ needle ++ post.
Proof.
  split.
  - induction s as [| c s IH]; intros H.
    + simpl in H. rewrite orb_false_r in H.
      destruct (startsWith_inv _ _ H) as [post ->]. now exists [], post.
    + cbn [includes] in H. apply orb_prop in H as [H | H].
      * destruct (startsWith_inv _ _ H) as [post ->]. now exists [], post.
      * destruct (IH H) as (pre & post & ->). now exists (c :: pre), post.
  - intros (pre & post & ->).
    apply includes_app_r. destruct needle as [| p needle].
    + now destruct post.
    + change (((p :: needle) ++ post)) with (p :: (needle ++ post)).
      cbn [includes].
      change (p :: (needle ++ post)) with ((p :: needle) ++ post).
      now rewrite startsWith_prefix.
Qed.

End Substrings.

(** X9: how a failed call is reported.  The invalid key toast is shown
    exactly when the message of the caught value contains the text
    [API key] somewhere, in this spelling; every other failure gets the
    generation failed toast. *)
Theorem failure_toast_by_message (e : Thrown) :
  (failureToast e = invalidKeyToast
   <-> exists pre post, errorMessageOf e = pre ++ js "API key" ++ post)
  /\ (failureToast e = generationFailedToast
      <-> ~ exists pre post, errorMessageOf e = pre ++ js "API key" ++ post).
Proof.
  unfold failureToast.
  destruct (includes (js "API key") (errorMessageOf e)) eqn:E.
  - apply includes_spec in E. split; split; try tauto; discriminate.
  - assert (Hn : ~ exists pre post,
                   errorMessageOf e = pre ++ js "API key" ++ post).
    { intros H. apply includes_spec in H. congruence. }
    split; split; try tauto; discriminate.
Qed.

Lemma generateTopicPrompt_parts scope t context :
  generateTopicPrompt scope t context
  = (js "Generate comprehensive study notes for the topic " ++ [DQUOTE])
    ++ t
    ++ ([DQUOTE] ++ js " within the unit " ++ [DQUOTE]
        ++ context_unitTitle context ++ [DQUOTE] ++ js "." ++ [LF]
        ++ sourceLines topicPromptBody).
Proof. unfold generateTopicPrompt. now rewrite <- !app_assoc. Qed.

(** X10: for one unit title, different topics get different prompts,
    so the calls of a run tell the topics apart. *)
Theorem topic_prompts_differ
  (scope : Scope) (t1 t2 : jsstring) (context : TopicContext) :
  t1 <> t2 ->
  generateTopicPrompt scope t1 context <> generateTopicPrompt scope t2 context.
Proof.
  intros Hne H. apply Hne.
  rewrite !generateTopicPrompt_parts in H.
  apply app_inv_head in H. now apply app_inv_tail in H.
Qed.

Lemma topic_prompts_differ_witness :
  generateTopicPrompt (scopeOf None initialState) (js "Arrays")
    {| context_unitTitle := js "Data Structures" |}
  <> generateTopicPrompt (scopeOf None initialState) (js "Linked Lists")
       {| context_unitTitle := js "Data Structures" |}.
Proof.
  apply (topic_prompts_differ (scopeOf None initialState) (js "Arrays")
           (js "Linked Lists") {| context_unitTitle := js "Data Structures" |}).
  vm_compute. discriminate.
Defined.

Lemma includes_refl (s : jsstring) : includes s s = true.
Proof. apply includes_spec. exists [], []. now rewrite app_nil_r. Qed.

Ltac find_part :=
  solve [ apply includes_refl
        | apply includes_app_l; find_part
        | apply includes_app_r; find_part ].

(** X11: the prompts carry what the user entered, unchanged.  The
    topic prompt contains the topic and the unit title, each between
    double quotes; the profile prompt contains every field of the
    form. *)
Theorem prompts_contain_the_input :
  (forall (scope : Scope) (t : jsstring) (context : TopicContext),
      includes ([DQUOTE] ++ t ++ [DQUOTE])
        (generateTopicPrompt scope t context) = true
      /\ includes ([DQUOTE] ++ context_unitTitle context ++ [DQUOTE])
           (generateTopicPrompt scope t context) = true)
  /\ (forall (scope : GitHubProfile.State) (data : GitHubProfile.FormData)
             (field : jsstring),
         In field (GitHubProfile.fieldsOf data) ->
         includes field (GitHubProfile.generatePrompt scope data) = true).
Proof.
  split.
  - intros scope t context. unfold generateTopicPrompt. split.
    + apply includes_spec.
      exists (js "Generate comprehensive study notes for the topic "),
        (js " within the unit " ++ [DQUOTE]
         ++ context_unitTitle context ++ [DQUOTE] ++ js "." ++ [LF]
         ++ sourceLines topicPromptBody).
      now rewrite <- !app_assoc.
    + apply includes_spec.
      exists (js "Generate comprehensive study notes for the topic "
              ++ [DQUOTE] ++ t ++ [DQUOTE] ++ js " within the unit "),
        (js "." ++ [LF] ++ sourceLines topicPromptBody).
      now rewrite <- !app_assoc.
  - intros scope data field H.
    unfold GitHubProfile.generatePrompt. cbn [joinWith].
    unfold GitHubProfile.fieldsOf in H. cbn [In] in H.
    repeat (destruct H as [<- | H]; [find_part |]). contradiction.
Qed.

(** ** The embedded literal and the preview *)

Section Literal.

Local Open Scope N_scope.

Lemma unicodeEscape_printable c : Forall (fun x => 32 <= x) (unicodeEscape c).
Proof.
  assert (Hd : forall d, 32 <= hexDigit d).
  { intros d. unfold hexDigit. destruct (d <? 10); lia. }
  unfold unicodeEscape, BACKSLASH.
  repeat (apply Forall_cons; split; [first [apply Hd | lia] |]).
  constructor.
Qed.

Lemma quoteCodeUnit_printable c : Forall (fun x => 32 <= x) (quoteCodeUnit c).
Proof.
  unfold quoteCodeUnit, BACKSLASH, DQUOTE.
  repeat match goal with
         | |- context [if ?k =? ?v then _ else _] =>
             destruct (k =? v);
             [repeat (apply Forall_cons; split; [lia |]); constructor |]
         end.
  destruct (N.ltb_spec c 32); [apply unicodeEscape_printable |].
  apply Forall_cons; split; [assumption | constructor].
Qed.

Lemma quoteJSONBody_printable s : Forall (fun x => 32 <= x) (quoteJSONBody s).
Proof.
  remember (length s) as n eqn:Hn. revert s Hn.
  induction n as [n IH] using lt_wf_ind. intros s Hn.
  destruct s as [| c rest]; [constructor |]. cbn [quoteJSONBody].
  destruct (isLeadingSurrogate c) eqn:Hc.
  - destruct rest as [| d rest']; [apply unicodeEscape_printable |].
    destruct (isTrailingSurrogate d) eqn:Hd.
    + apply andb_prop in Hc as [Hc _]. apply andb_prop in Hd as [Hd _].
      apply N.leb_le in Hc, Hd.
      apply Forall_cons; split; [lia |]. apply Forall_cons; split; [lia |].
      apply (IH (length rest')); [subst n; simpl; lia | reflexivity].
    + apply Forall_app; split; [apply unicodeEscape_printable |].
      apply (IH (length (d :: rest'))); [subst n; simpl; lia | reflexivity].
  - destruct (isTrailingSurrogate c).
    + apply Forall_app; split; [apply unicodeEscape_printable |].
      apply (IH (length rest)); [subst n; simpl; lia | reflexivity].
    + apply Forall_app; split; [apply quoteCodeUnit_printable |].
      apply (IH (length rest)); [subst n; simpl; lia | reflexivity].
Qed.

End Literal.

(** X12: the literal that the preview embeds.  What [JSON.stringify]
    writes for a string has no code unit below 32: no line feed,
    carriage return, tab or other such character is written as it
    is.  Reading the literal gives the string back, code unit for code
    unit, with the text after the closing quote left over. *)
Theorem embedded_literal_reads_back (s text : jsstring) :
  Forall (fun c => (c < 65536)%N) s ->
  Forall (fun c => (32 <= c)%N) (JSON_stringify s)
  /\ readStringLiteral (JSON_stringify s ++ text) = Some (s, text).
Proof.
  intros Hs. split.
  - unfold JSON_stringify, DQUOTE.
    apply Forall_app; split; [repeat constructor; lia |].
    apply Forall_app; split; [apply quoteJSONBody_printable |].
    repeat constructor; lia.
  - now apply readStringLiteral_JSON_stringify.
Qed.

Lemma embedded_literal_reads_back_witness :
  Forall (fun c => (32 <= c)%N)
    (JSON_stringify (js "# u" ++ [LF; DQUOTE; BACKSLASH; 9; 55357; 56395; 56395]%N))
  /\ readStringLiteral
       (JSON_stringify (js "# u" ++ [LF; DQUOTE; BACKSLASH; 9; 55357; 56395; 56395]%N)
        ++ js ";")
     = Some (js "# u" ++ [LF; DQUOTE; BACKSLASH; 9; 55357; 56395; 56395]%N,
             js ";").
Proof.
  apply (embedded_literal_reads_back
           (js "# u" ++ [LF; DQUOTE; BACKSLASH; 9; 55357; 56395; 56395]%N)
           (js ";")).
  apply (bool_decide_unpack _). vm_compute. exact I.
Defined.

(** The preview of notes generated without markup is exact. *)
Lemma preview_recovers_notes_without_markup_witness :
  Preview.recoveredMarkdown
    (Preview.previewDocument
       (fst (submit alwaysGenerates (Some (js "k")) (formWith "u" "a, b"))))
  = Some (generatedNotes
            (fst (submit alwaysGenerates (Some (js "k")) (formWith "u" "a, b")))).
Proof.
  apply (preview_recovers_notes_without_markup
           (fst (submit alwaysGenerates (Some (js "k")) (formWith "u" "a, b")))).
  - apply (bool_decide_unpack _). vm_compute. exact I.
  - apply (bool_decide_unpack _). vm_compute. exact I.
  - apply (bool_decide_unpack _). vm_compute. exact I.
Defined.

(** ** The submit handler of the profile page *)

(** X15: the profile page issues exactly one call per submission,
    with the prompt of the current form, whatever the form holds, and
    is never left loading.  When the call succeeds the text replaces
    the profile and no error is shown.  When it fails the fixed error
    message is shown, the failure is logged, and the profile
    generated before stays in place and stays visible. *)
Theorem profile_submission
  (service : Service) (st : GitHubProfile.State) :
  let prompt := GitHubProfile.generatePrompt st (GitHubProfile.formData st) in
  let st' := fst (fst (GitHubProfile.submit service st)) in
  let logged := snd (fst (GitHubProfile.submit service st)) in
  snd (GitHubProfile.submit service st)
  = [CallIssued prompt; CallSettled (service 0%nat prompt)]
  /\ GitHubProfile.formData st' = GitHubProfile.formData st
  /\ GitHubProfile.showsSpinner st' = false
  /\ match service 0%nat prompt with
     | Generated text =>
         GitHubProfile.generatedProfile st' = text
         /\ GitHubProfile.showsError st' = false
         /\ GitHubProfile.showsProfile st' = truthy text
         /\ logged = []
     | Threw e =>
         GitHubProfile.generatedProfile st' = GitHubProfile.generatedProfile st
         /\ GitHubProfile.error st' = GitHubProfile.failureMessage
         /\ GitHubProfile.showsError st' = true
         /\ GitHubProfile.showsProfile st'
            = truthy (GitHubProfile.generatedProfile st)
         /\ logged = [e]
     end.
Proof.
  intros prompt st' logged. subst prompt st' logged.
  unfold GitHubProfile.submit, GitHubProfile.handleSubmit. cbn [run].
  cbn [callNumber request].
  destruct (service 0%nat _) as [text | e]; cbn [run fst snd].
  - repeat split. unfold GitHubProfile.showsProfile. cbn.
    now rewrite andb_true_r.
  - repeat split. unfold GitHubProfile.showsProfile. cbn.
    now rewrite andb_true_r.
Qed.

(** ** The sidebar *)

Section SidebarFacts.

Import Sidebar.

Lemma handleNavClick_signed_out props p :
  user props = None ->
  handleNavClick props p
  = if sameString p (js "/")
    then Navigate p :: (if hasOnClose props then [OnClose] else [])
    else [SetIsLoginModalOpen true; SetPendingPath p].
Proof.
  intros Hu. unfold handleNavClick, signedIn. rewrite Hu. cbn [negb andb].
  now destruct (sameString p (js "/")).
Qed.

End SidebarFacts.

(** X16: the sidebar never takes a signed-out visitor to a page other
    than the dashboard.  A click on any path but [/] opens the login
    modal and records the path as pending, without navigating; no
    click on an entry navigates anywhere but to [/]; and no profile
    button is rendered. *)
Theorem sidebar_gates_signed_out_visitors (props : Sidebar.Props) :
  Sidebar.user props = None ->
  (forall p, p <> js "/" ->
     Sidebar.handleNavClick props p
     = [Sidebar.SetIsLoginModalOpen true; Sidebar.SetPendingPath p])
  /\ (forall entry q,
        In (Sidebar.Navigate q) (Sidebar.click props entry) -> q = js "/")
  /\ (forall active, ~ In (Sidebar.ProfileButton active) (Sidebar.render props)).
Proof.
  intros Hu.
  assert (Hnav : forall p q,
             In (Sidebar.Navigate q) (Sidebar.handleNavClick props p) ->
             q = js "/").
  { intros p q. rewrite handleNavClick_signed_out by assumption.
    unfold Sidebar.sameString. case_bool_decide as Hp.
    - subst p. intros [H | H]; [now injection H as <- |].
      destruct (Sidebar.hasOnClose props); simpl in H;
        [destruct H as [H | []]; discriminate | contradiction].
    - intros [H | [H | []]]; discriminate. }
  repeat split.
  - intros p Hp. rewrite handleNavClick_signed_out by assumption.
    unfold Sidebar.sameString. now rewrite bool_decide_eq_false_2.
  - intros [item a | a o | | a] q; cbn [Sidebar.click]; try apply Hnav.
    + intros [H | []]. discriminate.
    + intros [].
  - intros active. unfold Sidebar.render, Sidebar.signedIn. rewrite Hu.
    rewrite app_nil_r. intros H.
    repeat (apply in_app_or in H as [H | H]).
    + apply in_map_iff in H as (item & H & _). discriminate.
    + destruct H as [H | []]. discriminate.
    + destruct (Sidebar.aiToolsOpen props); [| contradiction].
      apply in_map_iff in H as (item & H & _). discriminate.
    + destruct H as [H | []]. discriminate.
Qed.

Lemma sidebar_gates_signed_out_visitors_witness :
  (forall p, p <> js "/" ->
     Sidebar.handleNavClick
       {| Sidebar.user := None; Sidebar.pathname := js "/";
          Sidebar.aiToolsOpen := true; Sidebar.hasOnClose := true |} p
     = [Sidebar.SetIsLoginModalOpen true; Sidebar.SetPendingPath p])
  /\ (forall entry q,
        In (Sidebar.Navigate q)
          (Sidebar.click
             {| Sidebar.user := None; Sidebar.pathname := js "/";
                Sidebar.aiToolsOpen := true; Sidebar.hasOnClose := true |}
             entry) ->
        q = js "/")
  /\ (forall active,
        ~ In (Sidebar.ProfileButton active)
            (Sidebar.render
               {| Sidebar.user := None; Sidebar.pathname := js "/";
                  Sidebar.aiToolsOpen := true; Sidebar.hasOnClose := true |})).
Proof.
  apply (sidebar_gates_signed_out_visitors
           {| Sidebar.user := None; Sidebar.pathname := js "/";
              Sidebar.aiToolsOpen := true; Sidebar.hasOnClose := true |}).
  reflexivity.
Defined.

(** X17: the highlight of the sidebar.  The targets of the buttons are
    pairwise different, so at most one button is highlighted for any
    location; the header of the tools list is highlighted exactly
    when the location is the path of one of the tools, whether the
    list is open or not. *)
Theorem sidebar_highlights_one_button (props : Sidebar.Props) :
  NoDup (map Sidebar.path (Sidebar.navItems ++ Sidebar.aiTools)
         ++ [js "/profile"])
  /\ length (List.filter
               (fun e => match e with
                         | Sidebar.ToolsHeader _ _ => false
                         | _ => Sidebar.isActive e
                         end)
               (Sidebar.render props)) <= 1
  /\ (In (Sidebar.ToolsHeader true (Sidebar.aiToolsOpen props))
         (Sidebar.render props)
      <-> In (Sidebar.pathname props) (map Sidebar.path Sidebar.aiTools)).
Proof.
  split; [| split].
  - apply (bool_decide_unpack _). vm_compute. exact I.
  - destruct props as [u loc opened onClose].
    unfold Sidebar.render, Sidebar.signedIn, Sidebar.itemButton.
    cbn [Sidebar.user Sidebar.pathname Sidebar.aiToolsOpen].
    generalize (existsb (fun tool => Sidebar.sameString loc (Sidebar.path tool))
                  Sidebar.aiTools).
    intros header.
    cbn [map Sidebar.navItems Sidebar.aiTools Sidebar.path].
    unfold Sidebar.sameString.
    apply Nat.leb_le.
    destruct u, opened;
      repeat match goal with
             | |- context [bool_decide (loc = ?p)] =>
                 destruct (bool_decide_reflect (loc = p));
                 [subst loc; vm_compute; reflexivity |]
             end;
      reflexivity.
  - destruct props as [u loc opened onClose].
    unfold Sidebar.render. cbn [Sidebar.pathname Sidebar.aiToolsOpen].
    split.
    + intros H.
      assert (Hex : existsb (fun tool => Sidebar.sameString loc (Sidebar.path tool))
                      Sidebar.aiTools = true).
      { repeat (apply in_app_or in H as [H | H]).
        - apply in_map_iff in H as (item & H & _). discriminate.
        - destruct H as [H | []]. now injection H.
        - destruct opened; [| contradiction].
          apply in_map_iff in H as (item & H & _). discriminate.
        - destruct H as [H | []]. discriminate.
        - destruct (Sidebar.signedIn _); [| contradiction].
          destruct H as [H | []]. discriminate. }
      apply existsb_exists in Hex as (tool & Htool & Hsame).
      apply bool_decide_eq_true in Hsame. subst loc. now apply in_map.
    + intros H. apply in_map_iff in H as (tool & Hp & Htool).
      apply in_or_app. right. apply in_or_app. left. left. f_equal.
      apply existsb_exists. exists tool. split; [assumption |].
      unfold Sidebar.sameString. now apply bool_decide_eq_true.
Qed.


(** ** Submitting again, and the title of the preview *)

Lemma promptFor_form (key : option jsstring) (st1 st2 : State) (t : jsstring) :
  formData st1 = formData st2 ->
  promptFor (scopeOf key st1) t = promptFor (scopeOf key st2) t.
Proof. unfold promptFor, scopeOf. cbn [rendered]. now intros ->. Qed.

Lemma outcomes_form service (key : option jsstring) (st1 st2 : State) topicList :
  formData st1 = formData st2 ->
  forall n,
    outcomes service (scopeOf key st1) n topicList
    = outcomes service (scopeOf key st2) n topicList.
Proof.
  intros Hf. induction topicList as [| t rest IH]; intros n; simpl;
    [reflexivity |].
  now rewrite IH, (promptFor_form key st1 st2 t Hf).
Qed.

Lemma traceOf_form (key : option jsstring) (st1 st2 : State) os :
  formData st1 = formData st2 ->
  traceOf (scopeOf key st1) os = traceOf (scopeOf key st2) os.
Proof.
  intros Hf. induction os as [| [t r] os IH]; simpl; [reflexivity |].
  now rewrite IH, (promptFor_form key st1 st2 t Hf).
Qed.

(** X18: a submission that passes the guards starts from scratch.
    The calls it issues and the notes, topic contents and completed
    sections it leaves depend on the form, the key and the service
    only: whatever an earlier run left in the state, none of it
    reaches the new results.  (A submission stopped by a guard leaves
    these cells as they were.) *)
Theorem submission_replaces_earlier_results
  (service : Service) (key : option jsstring) (st1 st2 : State) :
  formData st1 = formData st2 ->
  accepted key st1 = true ->
  snd (submit service key st1) = snd (submit service key st2)
  /\ generatedNotes (fst (submit service key st1))
     = generatedNotes (fst (submit service key st2))
  /\ topicContents (fst (submit service key st1))
     = topicContents (fst (submit service key st2))
  /\ completedSections (fst (submit service key st1))
     = completedSections (fst (submit service key st2)).
Proof.
  intros Hf Ha1.
  assert (Ha2 : accepted key st2 = true)
    by (unfold accepted in *; now rewrite <- Hf).
  assert (Hos : outcomesOf service key st1 = outcomesOf service key st2).
  { unfold outcomesOf. rewrite <- Hf. now apply outcomes_form. }
  repeat split.
  - rewrite !submit_events by assumption. rewrite Hos.
    now apply traceOf_form.
  - rewrite !submit_notes by assumption. now rewrite Hos, Hf.
  - rewrite !submit_topicContents by assumption. now rewrite Hos.
  - rewrite !submit_completedSections by assumption. now rewrite Hos.
Qed.

Lemma submission_replaces_earlier_results_witness :
  snd (submit failsSecondCall (Some (js "k")) (formWith "u" "a, b"))
  = snd (submit failsSecondCall (Some (js "k"))
           (fst (submit alwaysGenerates (Some (js "k")) (formWith "u" "a, b"))))
  /\ generatedNotes (fst (submit failsSecondCall (Some (js "k"))
                            (formWith "u" "a, b")))
     = generatedNotes
         (fst (submit failsSecondCall (Some (js "k"))
                 (fst (submit alwaysGenerates (Some (js "k"))
                         (formWith "u" "a, b")))))
  /\ topicContents (fst (submit failsSecondCall (Some (js "k"))
                           (formWith "u" "a, b")))
     = topicContents
         (fst (submit failsSecondCall (Some (js "k"))
                 (fst (submit alwaysGenerates (Some (js "k"))
                         (formWith "u" "a, b")))))
  /\ completedSections (fst (submit failsSecondCall (Some (js "k"))
                               (formWith "u" "a, b")))
     = completedSections
         (fst (submit failsSecondCall (Some (js "k"))
                 (fst (submit alwaysGenerates (Some (js "k"))
                         (formWith "u" "a, b"))))).
Proof.
  apply (submission_replaces_earlier_results failsSecondCall (Some (js "k"))
           (formWith "u" "a, b")
           (fst (submit alwaysGenerates (Some (js "k")) (formWith "u" "a, b")))).
  - reflexivity.
  - reflexivity.
Defined.

(** X19: the title of the preview document.  The text of the title
    element is the unit title as entered, without any escaping and
    followed at once by the end tag; when the unit title is empty it
    is [Study Notes Preview], so the title is never empty. *)
Theorem preview_title_element (st : State) :
  Preview.previewTitle (formData st) <> []
  /\ (unitTitle (formData st) = [] ->
      Preview.previewTitle (formData st) = js "Study Notes Preview")
  /\ (unitTitle (formData st) <> [] ->
      Preview.previewTitle (formData st) = unitTitle (formData st))
  /\ exists rest,
       after (js "<title>") (Preview.previewDocument st)
       = Some (Preview.previewTitle (formData st) ++ js "</title>" ++ rest).
Proof.
  unfold Preview.previewTitle. split; [| split; [| split]].
  - destruct (unitTitle (formData st)); discriminate.
  - now intros ->.
  - now destruct (unitTitle (formData st)).
  - exists (skipn 8 (sourceLines Preview.previewMiddle)
            ++ JSON_stringify (generatedNotes st)
            ++ sourceLines Preview.previewTail).
    unfold Preview.previewDocument.
    rewrite (after_found _ _ []) by (vm_compute; reflexivity).
    cbn [app].
    assert (Hm : sourceLines Preview.previewMiddle
                 = js "</title>" ++ skipn 8 (sourceLines Preview.previewMiddle))
      by (vm_compute; reflexivity).
    rewrite Hm at 1. now rewrite <- app_assoc.
Qed.
